(** * Chat widget (src/pages/Home.tsx): conversation state, persistence, greeting

    A shallow embedding of the chat widget of [Home.tsx].  The React
    component is modelled as a record of its [useState] cells together with
    the browser resources it touches (localStorage, the clock, the pending
    [setTimeout]); every event handler is a function on that record and
    [commit] replays the [useEffect] hooks with their dependency lists.

    Strings are [string]s whose characters stand for code units below 256.
    JavaScript values read back from storage are the trees of [js]. *)

From Stdlib Require Import ZArith String Ascii List Bool Lia.
From stdpp Require Import base option list gmap strings.

Local Open Scope string_scope.
Local Open Scope Z_scope.

(* ------------------------------------------------------------------------- *)
(** ** JavaScript strings *)

Module JsString.

(** White space removed by [String.prototype.trim], for code units < 256:
    TAB, LF, VT, FF, CR, SP and NBSP. *)
Definition isWhiteSpace (c : ascii) : bool :=
  let n := nat_of_ascii c in
  ((9 <=? n) && (n <=? 13) || (n =? 32) || (n =? 160))%nat.

Fixpoint trimStart (s : string) : string :=
  match s with
  | EmptyString => EmptyString
  | String c s' => if isWhiteSpace c then trimStart s' else s
  end.

Fixpoint trimEnd (s : string) : string :=
  match s with
  | EmptyString => EmptyString
  | String c s' =>
      match trimEnd s' with
      | EmptyString => if isWhiteSpace c then EmptyString else String c EmptyString
      | t => String c t
      end
  end.

(** [text.trim()] *)
Definition trim (s : string) : string := trimEnd (trimStart s).

(** [String.prototype.toLowerCase] on one code unit < 256: A-Z and the
    Latin-1 capitals (0xC0-0xDE except the multiplication sign 0xD7). *)
Definition lowerChar (c : ascii) : ascii :=
  let n := nat_of_ascii c in
  if ((65 <=? n) && (n <=? 90) ||
      (192 <=? n) && (n <=? 222) && negb (n =? 215))%nat
  then ascii_of_nat (n + 32) else c.

Fixpoint toLowerCase (s : string) : string :=
  match s with
  | EmptyString => EmptyString
  | String c s' => String (lowerChar c) (toLowerCase s')
  end.

Fixpoint startsWith (p s : string) : bool :=
  match p, s with
  | EmptyString, _ => true
  | String a p', String b s' => if Ascii.eqb a b then startsWith p' s' else false
  | String _ _, EmptyString => false
  end.

(** [s.includes(sub)] *)
Fixpoint includes (s sub : string) : bool :=
  startsWith sub s ||
  match s with
  | EmptyString => false
  | String _ s' => includes s' sub
  end.

(** A string is truthy when it is not empty. *)
Definition truthy (s : string) : bool :=
  match s with EmptyString => false | _ => true end.

(** Decimal rendering of an integer, as template literals print a number. *)
Definition digitChar (d : Z) : ascii := ascii_of_nat (48 + Z.to_nat d).

Fixpoint digitsFuel (fuel : nat) (n : Z) (acc : string) : string :=
  match fuel with
  | O => acc
  | S fuel' =>
      let acc' := String (digitChar (n mod 10)) acc in
      if n <? 10 then acc' else digitsFuel fuel' (n / 10) acc'
  end.

Definition ofZ (n : Z) : string :=
  if n <? 0 then String "-"%char (digitsFuel (S (Z.to_nat (Z.log2 (- n)))) (- n) EmptyString)
  else digitsFuel (S (Z.to_nat (Z.log2 n))) n EmptyString.

(** [n] printed on [w] digits, padded with zeros on the left. *)
Fixpoint padded (w : nat) (n : Z) : string :=
  match w with
  | O => EmptyString
  | S w' => padded w' (n / 10) ++ String (digitChar (n mod 10)) EmptyString
  end.

End JsString.

(* ------------------------------------------------------------------------- *)
(** ** JavaScript values, exceptions and dates *)

(** Time value of a [Date]: milliseconds since the epoch, or Invalid Date. *)
Inductive Date : Type :=
| ValidDate (ms : Z)
| InvalidDate.

(** Values held in memory after [JSON.parse]; [JDate] only arises from
    [new Date(...)], never from the parser. *)
#[warnings="-register-all"]
Inductive js : Type :=
| JNull
| JBool (b : bool)
| JNum (n : Z)
| JStr (s : string)
| JArr (elems : list js)
| JObj (fields : list (string * js))
| JDate (d : Date).

Inductive exn : Type :=
| SyntaxError
| TypeError
| QuotaExceededError.

(** Outcome of code that may throw. *)
Inductive result (A : Type) : Type :=
| Ok (a : A)
| Throw (e : exn).
Arguments Ok {A} a.
Arguments Throw {A} e.

Definition bindR {A B} (r : result A) (k : A -> result B) : result B :=
  match r with
  | Ok a => k a
  | Throw e => Throw e
  end.

Notation "'letR' x <- r 'in' k" := (bindR r (fun x => k))
  (at level 10, x name, r at level 100, k at level 200).

(** [try { body } catch { handler }] *)
Definition tryCatch {A} (body : result A) (handler : exn -> A) : A :=
  match body with
  | Ok a => a
  | Throw e => handler e
  end.

Fixpoint mapR {A B} (f : A -> result B) (l : list A) : result (list B) :=
  match l with
  | [] => Ok []
  | a :: l' => letR b <- f a in letR bs <- mapR f l' in Ok (b :: bs)
  end.

Module Js.

Fixpoint assoc (k : string) (fs : list (string * js)) : option js :=
  match fs with
  | [] => None
  | (k', v) :: fs' => if String.eqb k k' then Some v else assoc k fs'
  end.

(** [{...fs, k: v}]: an existing key keeps its place, a new one goes last. *)
Fixpoint setField (k : string) (v : js) (fs : list (string * js)) : list (string * js) :=
  match fs with
  | [] => [(k, v)]
  | (k', v') :: fs' =>
      if String.eqb k k' then (k, v) :: fs' else (k', v') :: setField k v fs'
  end.

(** [v.k] for a key that is no built-in property: [None] is [undefined];
    reading a property of [null] throws. *)
Definition getProp (v : js) (k : string) : result (option js) :=
  match v with
  | JNull => Throw TypeError
  | JObj fs => Ok (assoc k fs)
  | _ => Ok None
  end.

Fixpoint indexed {A} (f : A -> js) (i : Z) (l : list A) : list (string * js) :=
  match l with
  | [] => []
  | a :: l' => (JsString.ofZ i, f a) :: indexed f (i + 1) l'
  end.

(** Own enumerable properties copied by the spread [{...v}]. *)
Definition ownProps (v : js) : list (string * js) :=
  match v with
  | JObj fs => fs
  | JArr l => indexed (fun x => x) 0 l
  | JStr s => indexed (fun c => JStr (String c EmptyString)) 0 (list_ascii_of_string s)
  | _ => []
  end.

Fixpoint joinWith (sep : string) (l : list string) : string :=
  match l with
  | [] => EmptyString
  | [x] => x
  | x :: l' => x ++ sep ++ joinWith sep l'
  end.

(** [String(v)], the primitive an object or array is converted to. *)
Fixpoint toString (v : js) : string :=
  match v with
  | JNull => "null"
  | JBool b => if b then "true" else "false"
  | JNum n => JsString.ofZ n
  | JStr s => s
  | JArr l =>
      joinWith "," (map (fun x => match x with JNull => EmptyString | _ => toString x end) l)
  | JObj _ => "[object Object]"
  | JDate _ => "[object Date]"
  end.

(** [TimeClip] of an integral time value. *)
Definition timeClip (n : Z) : Date :=
  if Z.abs n <=? 8640000000000000 then ValidDate n else InvalidDate.

End Js.

(** The parts of the JavaScript runtime the widget calls and that are not
    code of the repository. *)
Class Platform : Type := {
  (** [JSON.parse]; [None] is a thrown [SyntaxError] *)
  JSON_parse : string -> option js;
  (** the text [JSON.stringify] prints for a tree without dates *)
  JSON_text : js -> string;
  (** [Date.parse] as used by [new Date(string)] *)
  Date_parse : string -> Date;
  (** [Date.prototype.toISOString] of a valid time value *)
  Date_toISOString : Z -> string
}.

(* ------------------------------------------------------------------------- *)
(** ** Data model (the TypeScript interfaces) *)

Inductive Role : Type := user | agent.

Record LeadQualification : Type := {
  is_qualified : bool;
  interest_level : string;
  next_action : string
}.

(** [AgentResult]; the two fields the widget tests for presence are options
    ([sources_used] is never read). *)
Record AgentResult : Type := {
  message : string;
  result_lead_qualification : option LeadQualification;
  result_suggested_actions : option (list string)
}.

Record Message : Type := {
  id : string;
  role : Role;
  content : string;
  timestamp : Date;
  suggested_actions : option (list string);
  lead_qualification : option LeadQualification
}.

Record ChatState : Type := {
  messages : list Message;
  sessionId : string;
  userId : string
}.

(** *** Constants *)

Definition AGENT_ID : string := "69704e18d6d0dcaec1115d28".
Definition STORAGE_KEY : string := "chat_widget_state".
Definition USER_ID_KEY : string := "chat_user_id".
Definition AUTO_GREETING_DELAY : Z := 5000.
Definition MAX_CHAR_LIMIT : nat := 250.

Definition INITIAL_GREETING : string :=
  "Hi! Welcome to our website. I'm here to help you learn about our services, pricing, and availability. How can I assist you today?".

Definition GREETING_ACTIONS : list string :=
  ["View Services"; "Check Availability"; "Pricing Info"; "Book Now"].

Definition FALLBACK_REPLY : string :=
  "I apologize, I could not generate a response.".
Definition PROCESSING_ERROR : string :=
  "I apologize, but I encountered an issue processing your request. Please try again.".
Definition NETWORK_ERROR : string :=
  "I apologize, but I encountered a network error. Please check your connection and try again.".

(* ------------------------------------------------------------------------- *)
(** ** Typed objects as JavaScript values *)

Section Codec.
Context `{Platform}.

Definition roleName (r : Role) : string :=
  match r with user => "user" | agent => "agent" end.

(** [Date.prototype.toJSON]: the ISO string, or [null] for Invalid Date. *)
Definition dateToJSON (d : Date) : js :=
  match d with
  | ValidDate t => JStr (Date_toISOString t)
  | InvalidDate => JNull
  end.

Definition encodeQualification (q : LeadQualification) : js :=
  JObj [("is_qualified", JBool (is_qualified q));
        ("interest_level", JStr (interest_level q));
        ("next_action", JStr (next_action q))].

(** A field holding [undefined] is left out by [JSON.stringify]. *)
Definition optField (k : string) (v : option js) : list (string * js) :=
  match v with Some x => [(k, x)] | None => [] end.

Definition encodeMessage (m : Message) : js :=
  JObj ([("id", JStr (id m));
         ("role", JStr (roleName (role m)));
         ("content", JStr (content m));
         ("timestamp", dateToJSON (timestamp m))]
        ++ optField "suggested_actions"
             (option_map (fun l => JArr (map JStr l)) (suggested_actions m))
        ++ optField "lead_qualification"
             (option_map encodeQualification (lead_qualification m))).

(** The tree [JSON.stringify] prints for [{ messages, sessionId, userId }]. *)
Definition encodeState (st : ChatState) : js :=
  JObj [("messages", JArr (map encodeMessage (messages st)));
        ("sessionId", JStr (sessionId st));
        ("userId", JStr (userId st))].

Definition JSON_stringify (st : ChatState) : string :=
  JSON_text (encodeState st).

(** [new Date(v)]; [None] is [undefined]. *)
Definition newDate (v : option js) : Date :=
  match v with
  | None => InvalidDate
  | Some JNull => ValidDate 0
  | Some (JBool b) => ValidDate (if b then 1 else 0)
  | Some (JNum n) => Js.timeClip n
  | Some (JStr s) => Date_parse s
  | Some (JDate d) => d
  | Some x => Date_parse (Js.toString x)
  end.

End Codec.

(** *** Reading a value at its declared type *)

Definition asString (v : js) : option string :=
  match v with JStr s => Some s | _ => None end.

Definition asBool (v : js) : option bool :=
  match v with JBool b => Some b | _ => None end.

Definition asRole (v : js) : option Role :=
  match v with
  | JStr s => if String.eqb s "user" then Some user
              else if String.eqb s "agent" then Some agent else None
  | _ => None
  end.

Definition asDate (v : js) : option Date :=
  match v with JDate d => Some d | _ => None end.

Fixpoint asStrings (l : list js) : option (list string) :=
  match l with
  | [] => Some []
  | v :: l' =>
      match asString v, asStrings l' with
      | Some s, Some ss => Some (s :: ss)
      | _, _ => None
      end
  end.

Definition asQualification (v : js) : option LeadQualification :=
  match v with
  | JObj fs =>
      match Js.assoc "is_qualified" fs, Js.assoc "interest_level" fs,
            Js.assoc "next_action" fs with
      | Some (JBool b), Some (JStr i), Some (JStr n) =>
          Some {| is_qualified := b; interest_level := i; next_action := n |}
      | _, _, _ => None
      end
  | _ => None
  end.

(** An optional field: absent, or present at its type. *)
Definition asOptional {A} (read : js -> option A) (v : option js) : option (option A) :=
  match v with
  | None => Some None
  | Some x => match read x with Some a => Some (Some a) | None => None end
  end.

Definition asActions (v : js) : option (list string) :=
  match v with JArr l => asStrings l | _ => None end.

Definition asMessage (v : js) : option Message :=
  match v with
  | JObj fs =>
      match Js.assoc "id" fs, Js.assoc "role" fs, Js.assoc "content" fs,
            Js.assoc "timestamp" fs with
      | Some (JStr i), Some r, Some (JStr c), Some (JDate d) =>
          match asRole r,
                asOptional asActions (Js.assoc "suggested_actions" fs),
                asOptional asQualification (Js.assoc "lead_qualification" fs) with
          | Some r', Some sa, Some lq =>
              Some {| id := i; role := r'; content := c; timestamp := d;
                      suggested_actions := sa; lead_qualification := lq |}
          | _, _, _ => None
          end
      | _, _, _, _ => None
      end
  | _ => None
  end.

Fixpoint asMessages (l : list js) : option (list Message) :=
  match l with
  | [] => Some []
  | v :: l' =>
      match asMessage v, asMessages l' with
      | Some m, Some ms => Some (m :: ms)
      | _, _ => None
      end
  end.

Definition asChatState (v : js) : option ChatState :=
  match v with
  | JObj fs =>
      match Js.assoc "messages" fs, Js.assoc "sessionId" fs, Js.assoc "userId" fs with
      | Some (JArr l), Some (JStr s), Some (JStr u) =>
          match asMessages l with
          | Some ms => Some {| messages := ms; sessionId := s; userId := u |}
          | None => None
          end
      | _, _, _ => None
      end
  | _ => None
  end.

(* ------------------------------------------------------------------------- *)
(** ** localStorage *)

(** The stored items and the origin's quota in code units ([None]: no
    limit); [setItem] is the only operation that can fail. *)
Record Storage : Type := {
  items : gmap string string;
  quota : option nat
}.

Definition usage (m : gmap string string) : nat :=
  map_fold (fun k v acc => (String.length k + String.length v + acc)%nat) 0%nat m.

Definition getItem (k : string) (st : Storage) : option string :=
  items st !! k.

Definition setItem (k v : string) (st : Storage) : result Storage :=
  let m := <[k := v]> (items st) in
  match quota st with
  | Some q =>
      if (q <? usage m)%nat then Throw QuotaExceededError
      else Ok {| items := m; quota := quota st |}
  | None => Ok {| items := m; quota := quota st |}
  end.

Definition removeItem (k : string) (st : Storage) : Storage :=
  {| items := delete k (items st); quota := quota st |}.

(* ------------------------------------------------------------------------- *)
(** ** Helper functions of Home.tsx *)

Section Helpers.
Context `{Platform}.

(** [generateId]: [now] is [Date.now()], [rnd] the nine base-36 digits
    cut from [Math.random()]. *)
Definition generateId (now : Z) (rnd : string) : string :=
  JsString.ofZ now ++ "-" ++ rnd.

(** [generateUserId]: returns the identifier and the storage it leaves. *)
Definition generateUserId (now : Z) (rnd : string) (st : Storage)
  : result (string * Storage) :=
  match getItem USER_ID_KEY st with
  | Some u =>
      if JsString.truthy u then Ok (u, st)
      else
        let u' := "user-" ++ generateId now rnd in
        letR st' <- setItem USER_ID_KEY u' st in Ok (u', st')
  | None =>
      let u' := "user-" ++ generateId now rnd in
      letR st' <- setItem USER_ID_KEY u' st in Ok (u', st')
  end.

Definition generateSessionId (now : Z) (rnd : string) : string :=
  "session-" ++ generateId now rnd.

(** [msg => ({ ...msg, timestamp: new Date(msg.timestamp) })] *)
Definition rehydrate (msg : js) : result js :=
  letR ts <- Js.getProp msg "timestamp" in
  Ok (JObj (Js.setField "timestamp" (JDate (newDate ts)) (Js.ownProps msg))).

(** [v.map(f)] where [v] came out of [JSON.parse]: only an array has a
    [map] method; on [undefined] or anything else the call throws. *)
Definition arrayMap (f : js -> result js) (v : option js) : result js :=
  match v with
  | Some (JArr l) => letR l' <- mapR f l in Ok (JArr l')
  | _ => Throw TypeError
  end.

(** [parsed.messages = v] *)
Definition assignMessages (parsed v : js) : js :=
  match parsed with
  | JObj fs => JObj (Js.setField "messages" v fs)
  | _ => parsed
  end.

(** The body of the [try] block of [loadChatState]; [Ok None] is falling
    through to [return null]. *)
Definition loadChatState_try (st : Storage) : result (option js) :=
  match getItem STORAGE_KEY st with
  | Some saved =>
      if JsString.truthy saved then
        match JSON_parse saved with
        | None => Throw SyntaxError
        | Some parsed =>
            letR msgs <- Js.getProp parsed "messages" in
            letR mapped <- arrayMap rehydrate msgs in
            Ok (Some (assignMessages parsed mapped))
        end
      else Ok None
  | None => Ok None
  end.

Definition loadChatState (st : Storage) : option js :=
  tryCatch (loadChatState_try st) (fun _ => None).

Definition saveChatState (state : ChatState) (st : Storage) : Storage :=
  tryCatch (setItem STORAGE_KEY (JSON_stringify state) st) (fun _ => st).

End Helpers.

(* ------------------------------------------------------------------------- *)
(** ** ChatWidget: the [useState] cells *)

(** [chat] groups the cells [messages], [sessionId] and [userId], the object
    handed to [saveChatState]; [messagesRef] is the identity of the array in
    [messages], renewed by every [setMessages]. *)
Record Widget : Type := {
  isOpen : bool;
  chat : ChatState;
  messagesRef : nat;
  inputValue : string;
  isTyping : bool;
  showQuickReplies : bool;
  currentQuickReplies : list string;
  hasShownGreeting : bool
}.

Definition setIsOpen (b : bool) (w : Widget) : Widget :=
  {| isOpen := b; chat := chat w; messagesRef := messagesRef w;
     inputValue := inputValue w; isTyping := isTyping w;
     showQuickReplies := showQuickReplies w;
     currentQuickReplies := currentQuickReplies w;
     hasShownGreeting := hasShownGreeting w |}.

(** [setMessages(prev => f(prev))]; [setMessages(v)] is [f := fun _ => v]. *)
Definition setMessages (f : list Message -> list Message) (w : Widget) : Widget :=
  {| isOpen := isOpen w;
     chat := {| messages := f (messages (chat w));
                sessionId := sessionId (chat w); userId := userId (chat w) |};
     messagesRef := S (messagesRef w);
     inputValue := inputValue w; isTyping := isTyping w;
     showQuickReplies := showQuickReplies w;
     currentQuickReplies := currentQuickReplies w;
     hasShownGreeting := hasShownGreeting w |}.

Definition setInputValue (v : string) (w : Widget) : Widget :=
  {| isOpen := isOpen w; chat := chat w; messagesRef := messagesRef w;
     inputValue := v; isTyping := isTyping w;
     showQuickReplies := showQuickReplies w;
     currentQuickReplies := currentQuickReplies w;
     hasShownGreeting := hasShownGreeting w |}.

Definition setIsTyping (b : bool) (w : Widget) : Widget :=
  {| isOpen := isOpen w; chat := chat w; messagesRef := messagesRef w;
     inputValue := inputValue w; isTyping := b;
     showQuickReplies := showQuickReplies w;
     currentQuickReplies := currentQuickReplies w;
     hasShownGreeting := hasShownGreeting w |}.

Definition setShowQuickReplies (b : bool) (w : Widget) : Widget :=
  {| isOpen := isOpen w; chat := chat w; messagesRef := messagesRef w;
     inputValue := inputValue w; isTyping := isTyping w;
     showQuickReplies := b;
     currentQuickReplies := currentQuickReplies w;
     hasShownGreeting := hasShownGreeting w |}.

Definition setCurrentQuickReplies (l : list string) (w : Widget) : Widget :=
  {| isOpen := isOpen w; chat := chat w; messagesRef := messagesRef w;
     inputValue := inputValue w; isTyping := isTyping w;
     showQuickReplies := showQuickReplies w;
     currentQuickReplies := l;
     hasShownGreeting := hasShownGreeting w |}.

Definition setHasShownGreeting (b : bool) (w : Widget) : Widget :=
  {| isOpen := isOpen w; chat := chat w; messagesRef := messagesRef w;
     inputValue := inputValue w; isTyping := isTyping w;
     showQuickReplies := showQuickReplies w;
     currentQuickReplies := currentQuickReplies w;
     hasShownGreeting := b |}.

(** The cells of the first render; the two identifiers come from the lazy
    initialisers [generateSessionId] and [generateUserId]. *)
Definition initialWidget (sid uid : string) : Widget :=
  {| isOpen := false;
     chat := {| messages := []; sessionId := sid; userId := uid |};
     messagesRef := 0%nat;
     inputValue := EmptyString; isTyping := false;
     showQuickReplies := false; currentQuickReplies := [];
     hasShownGreeting := false |}.

Definition isAgent (m : Message) : bool :=
  match role m with agent => true | user => false end.

Definition isUser (m : Message) : bool :=
  match role m with user => true | agent => false end.

Definition isSome {A} (o : option A) : bool :=
  match o with Some _ => true | None => false end.

(** [[...l].reverse().find(p)] *)
Definition findLast {A} (p : A -> bool) (l : list A) : option A :=
  List.find p (rev l).

(* ------------------------------------------------------------------------- *)
(** ** Event handlers *)

(** What [await callAIAgent(...)] gives back to [handleSendMessage]. *)
Inductive Outcome : Type :=
| Succeeded (r : AgentResult)
    (** [result.success && result.response.status === 'success'] *)
| Failed
    (** the promise resolved with anything else *)
| Rejected.
    (** the promise rejected, or reading the payload threw *)

Section Handlers.
Context `{Platform}.

Definition userMessage (now : Z) (rnd text : string) : Message :=
  {| id := generateId now rnd; role := user; content := text;
     timestamp := ValidDate now;
     suggested_actions := None; lead_qualification := None |}.

Definition agentMessage (now : Z) (rnd : string) (r : AgentResult) : Message :=
  {| id := generateId now rnd; role := agent;
     content := if JsString.truthy (message r) then message r else FALLBACK_REPLY;
     timestamp := ValidDate now;
     suggested_actions := result_suggested_actions r;
     lead_qualification := result_lead_qualification r |}.

Definition errorMessage (now : Z) (rnd text : string) : Message :=
  {| id := generateId now rnd; role := agent; content := text;
     timestamp := ValidDate now;
     suggested_actions := None; lead_qualification := None |}.

Definition greetingMessage (now : Z) (rnd : string) : Message :=
  {| id := generateId now rnd; role := agent; content := INITIAL_GREETING;
     timestamp := ValidDate now;
     suggested_actions := Some GREETING_ACTIONS; lead_qualification := None |}.

(** [handleSendMessage(text)] up to the [await]: [None] is the early
    [return]; otherwise the updated cells, with one agent call issued. *)
Definition handleSendMessage (now : Z) (rnd text : string) (w : Widget)
  : option Widget :=
  let trimmedText := JsString.trim text in
  if negb (JsString.truthy trimmedText) then None
  else
    Some (setIsTyping true
           (setInputValue EmptyString
             (setMessages (fun prev => (prev ++ [userMessage now rnd trimmedText])%list)
               (setShowQuickReplies false w)))).

(** [handleSendMessage] after the [await]. *)
Definition handleSendMessage_resume (now : Z) (rnd : string) (o : Outcome)
    (w : Widget) : Widget :=
  match o with
  | Succeeded agentData =>
      let w1 :=
        setMessages (fun prev => (prev ++ [agentMessage now rnd agentData])%list)
          (setIsTyping false w) in
      match result_suggested_actions agentData with
      | Some (a :: l) =>
          setShowQuickReplies true (setCurrentQuickReplies (a :: l) w1)
      | _ => w1
      end
  | Failed =>
      setMessages (fun prev => (prev ++ [errorMessage now rnd PROCESSING_ERROR])%list)
        (setIsTyping false w)
  | Rejected =>
      setMessages (fun prev => (prev ++ [errorMessage now rnd NETWORK_ERROR])%list)
        (setIsTyping false w)
  end.

(** The message [handleSendMessage_resume] appends for an outcome. *)
Definition replyMessage (now : Z) (rnd : string) (o : Outcome) : Message :=
  match o with
  | Succeeded r => agentMessage now rnd r
  | Failed => errorMessage now rnd PROCESSING_ERROR
  | Rejected => errorMessage now rnd NETWORK_ERROR
  end.

Definition handleQuickReply (now : Z) (rnd action : string) (w : Widget)
  : option Widget :=
  handleSendMessage now rnd action w.

(** [handleInputChange] with [e.target.value = value] *)
Definition handleInputChange (value : string) (w : Widget) : Widget :=
  if (String.length value <=? MAX_CHAR_LIMIT)%nat then setInputValue value w
  else w.

(** The [onClick] of the reset button, on the cells and on storage. *)
Definition handleReset (w : Widget) (st : Storage) : Widget * Storage :=
  (setHasShownGreeting false (setMessages (fun _ => []) w),
   removeItem STORAGE_KEY st).

(** The callback handed to [setTimeout] by the greeting effect. *)
Definition greetingCallback (now : Z) (rnd : string) (w : Widget) : Widget :=
  let greeting := greetingMessage now rnd in
  setHasShownGreeting true
    (setShowQuickReplies true
      (setCurrentQuickReplies
         (match suggested_actions greeting with Some l => l | None => [] end)
         (setMessages (fun _ => [greeting]) w))).

(** *** Values computed by the render *)

Definition latestQualification (w : Widget) : option LeadQualification :=
  match findLast (fun m => isAgent m && isSome (lead_qualification m))
                 (messages (chat w)) with
  | Some m => lead_qualification m
  | None => None
  end.

(** Whether [BookingCTA] returns its card for this qualification. *)
Definition BookingCTA (qualification : option LeadQualification) : bool :=
  match qualification with
  | None => false
  | Some q =>
      if negb (is_qualified q) then false
      else if negb (JsString.includes (JsString.toLowerCase (next_action q)) "book")
           then false
           else true
  end.

(** [{latestQualification && <BookingCTA ... />}]: whether this expression
    of the expanded render yields the card. *)
Definition bookingCard (w : Widget) : bool :=
  match latestQualification w with
  | Some q => BookingCTA (Some q)
  | None => false
  end.

(** The booking card is on screen: while [isOpen] is false the render
    returns the floating button alone, before the card is reached. *)
Definition bookingPromptShown (w : Widget) : bool :=
  if negb (isOpen w) then false else bookingCard w.

(** The quick-reply row is rendered. *)
Definition quickRepliesShown (w : Widget) : bool :=
  isOpen w && showQuickReplies w
  && (0 <? length (currentQuickReplies w))%nat && negb (isTyping w).

(** [disabled] of the send button *)
Definition sendDisabled (w : Widget) : bool :=
  negb (JsString.truthy (JsString.trim (inputValue w))) || isTyping w.

End Handlers.

(* ------------------------------------------------------------------------- *)
(** ** The mounted widget and its environment *)

(** [greetingTimer] is the time at which the pending [setTimeout] is due;
    [inFlight] counts the agent calls whose [await] has not resumed. *)
Record World : Type := {
  widget : Widget;
  localStorage : Storage;
  clock : Z;
  greetingTimer : option Z;
  inFlight : nat;
  mounted : bool
}.

Definition withWidget (w : Widget) (wd : World) : World :=
  {| widget := w; localStorage := localStorage wd; clock := clock wd;
     greetingTimer := greetingTimer wd; inFlight := inFlight wd;
     mounted := mounted wd |}.

Inductive Event : Type :=
| Open
| Minimize
| InputChange (value : string)
| PressEnter (rnd : string)
| ClickSend (rnd : string)
| ClickQuickReply (index : nat) (rnd : string)
| ClickReset
| AgentReply (o : Outcome) (rnd : string)
| Elapse (ms : nat) (rnd : string)
| Unmount.

Section Component.
Context `{Platform}.

(** *** Effects *)

(** Body of the save effect, dependencies [messages, sessionId, userId]. *)
Definition saveEffect (w : Widget) (st : Storage) : Storage :=
  if (0 <? length (messages (chat w)))%nat then saveChatState (chat w) st
  else st.

Definition saveDepsChanged (prev w : Widget) : bool :=
  negb (messagesRef prev =? messagesRef w)%nat
  || negb (String.eqb (sessionId (chat prev)) (sessionId (chat w)))
  || negb (String.eqb (userId (chat prev)) (userId (chat w))).

(** Body of the greeting effect, dependencies
    [hasShownGreeting, messages.length]: the timer it arms, if any. *)
Definition greetingEffect (w : Widget) (now : Z) : option Z :=
  if negb (hasShownGreeting w) && (length (messages (chat w)) =? 0)%nat
  then Some (now + AUTO_GREETING_DELAY)
  else None.

Definition greetingDepsChanged (prev w : Widget) : bool :=
  negb (Bool.eqb (hasShownGreeting prev) (hasShownGreeting w))
  || negb (length (messages (chat prev)) =? length (messages (chat w)))%nat.

(** Effects after a render that follows the render of [prev]: an effect
    whose dependencies changed runs its clean-up ([clearTimeout]) and then
    its body. *)
Definition commit (prev : Widget) (wd : World) : World :=
  let w := widget wd in
  {| widget := w;
     localStorage :=
       if saveDepsChanged prev w then saveEffect w (localStorage wd)
       else localStorage wd;
     clock := clock wd;
     greetingTimer :=
       if greetingDepsChanged prev w then greetingEffect w (clock wd)
       else greetingTimer wd;
     inFlight := inFlight wd;
     mounted := mounted wd |}.

(** *** Mount *)

Definition savedMessages (savedState : js) : list js :=
  match savedState with
  | JObj fs => match Js.assoc "messages" fs with Some (JArr l) => l | _ => [] end
  | _ => []
  end.

(** The state updates of the mount effect for a restored log. *)
Definition restore (ms : list Message) (w : Widget) : Widget :=
  let w1 := setHasShownGreeting true (setMessages (fun _ => ms) w) in
  match findLast isAgent ms with
  | Some lastAgentMsg =>
      match suggested_actions lastAgentMsg with
      | Some (a :: l) => setShowQuickReplies true (setCurrentQuickReplies (a :: l) w1)
      | _ => w1
      end
  | None => w1
  end.

(** The mount effect.  [None]: the stored messages are not of type
    [Message], which the cell [messages] cannot hold.  A restored message is
    held at its declared type, that is, by its six declared fields. *)
Definition mountEffect (w : Widget) (st : Storage) : option Widget :=
  match loadChatState st with
  | Some savedState =>
      let l := savedMessages savedState in
      if (0 <? length l)%nat then
        match asMessages l with
        | Some ms => Some (restore ms w)
        | None => None
        end
      else Some w
  | None => Some w
  end.

(** First render and its effects, then the render caused by the mount
    effect.  [None] also when the initialiser [generateUserId] throws. *)
Definition mount (st : Storage) (now : Z) (rndS rndU : string) : option World :=
  let sid := generateSessionId now rndS in
  match generateUserId now rndU st with
  | Throw _ => None
  | Ok (uid, st1) =>
      let w0 := initialWidget sid uid in
      match mountEffect w0 st1 with
      | None => None
      | Some w1 =>
          Some (commit w0
                  {| widget := w1;
                     localStorage := saveEffect w0 st1;
                     clock := now;
                     greetingTimer := greetingEffect w0 now;
                     inFlight := 0%nat;
                     mounted := true |})
      end
  end.

(** *** Events *)

Definition send (rnd text : string) (wd : World) : World :=
  match handleSendMessage (clock wd) rnd text (widget wd) with
  | None => wd
  | Some w' =>
      commit (widget wd)
        {| widget := w'; localStorage := localStorage wd; clock := clock wd;
           greetingTimer := greetingTimer wd; inFlight := S (inFlight wd);
           mounted := mounted wd |}
  end.

Definition reset (wd : World) : World :=
  let '(w', st') := handleReset (widget wd) (localStorage wd) in
  commit (widget wd)
    {| widget := w'; localStorage := st'; clock := clock wd;
       greetingTimer := greetingTimer wd; inFlight := inFlight wd;
       mounted := mounted wd |}.

Definition resume (o : Outcome) (rnd : string) (wd : World) : World :=
  match inFlight wd with
  | O => wd
  | S n =>
      commit (widget wd)
        {| widget := handleSendMessage_resume (clock wd) rnd o (widget wd);
           localStorage := localStorage wd; clock := clock wd;
           greetingTimer := greetingTimer wd; inFlight := n;
           mounted := mounted wd |}
  end.

(** Time passes; a timer that has become due runs its callback. *)
Definition elapse (ms : nat) (rnd : string) (wd : World) : World :=
  let now := clock wd + Z.of_nat ms in
  let due := match greetingTimer wd with
             | Some d => d <=? now
             | None => false
             end in
  if due then
    commit (widget wd)
      {| widget := greetingCallback now rnd (widget wd);
         localStorage := localStorage wd; clock := now;
         greetingTimer := None; inFlight := inFlight wd;
         mounted := mounted wd |}
  else
    {| widget := widget wd; localStorage := localStorage wd; clock := now;
       greetingTimer := greetingTimer wd; inFlight := inFlight wd;
       mounted := mounted wd |}.

(** Clean-up of every effect; later state updates are dropped. *)
Definition unmount (wd : World) : World :=
  {| widget := widget wd; localStorage := localStorage wd; clock := clock wd;
     greetingTimer := None; inFlight := inFlight wd; mounted := false |}.

(** One event on the widget.  An event whose control is not rendered, or
    is disabled, in the current render leaves everything as it is. *)
Definition step (wd : World) (e : Event) : World :=
  let w := widget wd in
  if negb (mounted wd) then wd
  else
    match e with
    | Open =>
        if isOpen w then wd else commit w (withWidget (setIsOpen true w) wd)
    | Minimize =>
        if isOpen w then commit w (withWidget (setIsOpen false w) wd) else wd
    | InputChange value =>
        if isOpen w && negb (isTyping w)
        then commit w (withWidget (handleInputChange value w) wd) else wd
    | PressEnter rnd =>
        if isOpen w && negb (isTyping w) then send rnd (inputValue w) wd else wd
    | ClickSend rnd =>
        if isOpen w && negb (sendDisabled w) then send rnd (inputValue w) wd else wd
    | ClickQuickReply index rnd =>
        if quickRepliesShown w then
          match currentQuickReplies w !! index with
          | Some action => send rnd action wd
          | None => wd
          end
        else wd
    | ClickReset => if isOpen w then reset wd else wd
    | AgentReply o rnd => resume o rnd wd
    | Elapse ms rnd => elapse ms rnd wd
    | Unmount => unmount wd
    end.

Definition run (wd : World) (es : list Event) : World :=
  fold_left step es wd.

End Component.

(* ------------------------------------------------------------------------- *)
(** ** A reference platform

    Executable definitions of the four platform functions, used to run the
    widget on concrete inputs.  [Date_parse] reads the format [toISOString]
    prints; [JSON_parse] reads JSON text with integer numbers and escapes of
    code units below 256. *)

Module Browser.

Definition msPerDay : Z := 86400000.

(** Civil date (year, month, day) of a day number counted from the epoch. *)
Definition civilFromDays (days : Z) : Z * Z * Z :=
  let z := days + 719468 in
  let era := z / 146097 in
  let doe := z - era * 146097 in
  let yoe := (doe - doe / 1460 + doe / 36524 - doe / 146096) / 365 in
  let doy := doe - (365 * yoe + yoe / 4 - yoe / 100) in
  let mp := (5 * doy + 2) / 153 in
  let d := doy - (153 * mp + 2) / 5 + 1 in
  let m := if mp <? 10 then mp + 3 else mp - 9 in
  ((yoe + era * 400 + (if m <=? 2 then 1 else 0)), m, d).

Definition daysFromCivil (y m d : Z) : Z :=
  let y' := y - (if m <=? 2 then 1 else 0) in
  let era := y' / 400 in
  let yoe := y' - era * 400 in
  let doy := (153 * (if 2 <? m then m - 3 else m + 9) + 2) / 5 + d - 1 in
  let doe := yoe * 365 + yoe / 4 - yoe / 100 + doy in
  era * 146097 + doe - 719468.

Definition yearText (y : Z) : string :=
  if (0 <=? y) && (y <=? 9999) then JsString.padded 4 y
  else if y <? 0 then "-" ++ JsString.padded 6 (- y)
  else "+" ++ JsString.padded 6 y.

Definition toISOString (t : Z) : string :=
  let '(y, m, d) := civilFromDays (t / msPerDay) in
  let r := t mod msPerDay in
  yearText y ++ "-" ++ JsString.padded 2 m ++ "-" ++ JsString.padded 2 d
  ++ "T" ++ JsString.padded 2 (r / 3600000)
  ++ ":" ++ JsString.padded 2 (r / 60000 mod 60)
  ++ ":" ++ JsString.padded 2 (r / 1000 mod 60)
  ++ "." ++ JsString.padded 3 (r mod 1000) ++ "Z".

Definition digitValue (c : ascii) : option Z :=
  let n := nat_of_ascii c in
  if ((48 <=? n) && (n <=? 57))%nat then Some (Z.of_nat n - 48) else None.

Fixpoint number (acc : Z) (s : string) : option Z :=
  match s with
  | EmptyString => Some acc
  | String c s' =>
      match digitValue c with
      | Some d => number (10 * acc + d) s'
      | None => None
      end
  end.

Definition field (start len : nat) (s : string) : option Z :=
  let f := String.substring start len s in
  if (String.length f =? len)%nat then number 0 f else None.

Definition charAt (i : nat) (s : string) : string := String.substring i 1 s.

(** The date-time of [YYYY-MM-DDTHH:mm:ss.sssZ] after a year of [yl] digits. *)
Definition parseFrom (sign : Z) (yl : nat) (s : string) : Date :=
  match field 0 yl s, field (yl + 1) 2 s, field (yl + 4) 2 s,
        field (yl + 7) 2 s, field (yl + 10) 2 s, field (yl + 13) 2 s,
        field (yl + 16) 3 s with
  | Some y, Some m, Some d, Some hh, Some mm, Some ss, Some ms =>
      if String.eqb (charAt yl s) "-" && String.eqb (charAt (yl + 3) s) "-"
         && String.eqb (charAt (yl + 6) s) "T" && String.eqb (charAt (yl + 9) s) ":"
         && String.eqb (charAt (yl + 12) s) ":" && String.eqb (charAt (yl + 15) s) "."
         && String.eqb (String.substring (yl + 19) 2 s) "Z"
         && (1 <=? m) && (m <=? 12) && (1 <=? d) && (d <=? 31)
         && (hh <=? 23) && (mm <=? 59) && (ss <=? 59)
      then Js.timeClip (daysFromCivil (sign * y) m d * msPerDay
                        + hh * 3600000 + mm * 60000 + ss * 1000 + ms)
      else InvalidDate
  | _, _, _, _, _, _, _ => InvalidDate
  end.

Definition parseDate (s : string) : Date :=
  match s with
  | String "+" s' => parseFrom 1 6 s'
  | String "-" s' => parseFrom (-1) 6 s'
  | _ => parseFrom 1 4 s
  end.

(** *** JSON text *)

Definition dquote : ascii := ascii_of_nat 34.

Definition hexDigit (n : nat) : ascii :=
  if (n <? 10)%nat then ascii_of_nat (48 + n) else ascii_of_nat (87 + n).

Definition escapeChar (c : ascii) : string :=
  let n := nat_of_ascii c in
  if (n =? 34)%nat then String "\"%char (String dquote EmptyString)
  else if (n =? 92)%nat then "\\"
  else if (n =? 10)%nat then "\n"
  else if (n =? 13)%nat then "\r"
  else if (n =? 9)%nat then "\t"
  else if (n =? 8)%nat then "\b"
  else if (n =? 12)%nat then "\f"
  else if (n <? 32)%nat then
    "\u00" ++ String (hexDigit (n / 16)) (String (hexDigit (n mod 16)) EmptyString)
  else String c EmptyString.

Fixpoint escape (s : string) : string :=
  match s with
  | EmptyString => EmptyString
  | String c s' => escapeChar c ++ escape s'
  end.

Definition quote (s : string) : string :=
  String dquote (escape s) ++ String dquote EmptyString.

Fixpoint text (v : js) : string :=
  match v with
  | JNull => "null"
  | JBool b => if b then "true" else "false"
  | JNum n => JsString.ofZ n
  | JStr s => quote s
  | JArr l => "[" ++ Js.joinWith "," (map text l) ++ "]"
  | JObj fs =>
      "{" ++ Js.joinWith ","
               (map (fun p => match p with (k, x) => quote k ++ ":" ++ text x end) fs)
      ++ "}"
  | JDate (ValidDate t) => quote (toISOString t)
  | JDate InvalidDate => "null"
  end.

Definition isJsonWs (c : ascii) : bool :=
  let n := nat_of_ascii c in
  ((n =? 32) || (n =? 9) || (n =? 10) || (n =? 13))%nat.

Fixpoint skipWs (s : string) : string :=
  match s with
  | String c s' => if isJsonWs c then skipWs s' else s
  | EmptyString => EmptyString
  end.

Definition hexValue (c : ascii) : option nat :=
  let n := nat_of_ascii c in
  if ((48 <=? n) && (n <=? 57))%nat then Some (n - 48)%nat
  else if ((97 <=? n) && (n <=? 102))%nat then Some (n - 87)%nat
  else if ((65 <=? n) && (n <=? 70))%nat then Some (n - 55)%nat
  else None.

Definition unescape (c : ascii) : option ascii :=
  let n := nat_of_ascii c in
  if (n =? 34)%nat then Some dquote
  else if (n =? 92)%nat then Some "\"%char
  else if (n =? 47)%nat then Some "/"%char
  else if (n =? 110)%nat then Some (ascii_of_nat 10)
  else if (n =? 114)%nat then Some (ascii_of_nat 13)
  else if (n =? 116)%nat then Some (ascii_of_nat 9)
  else if (n =? 98)%nat then Some (ascii_of_nat 8)
  else if (n =? 102)%nat then Some (ascii_of_nat 12)
  else None.

Definition consChar (c : ascii) (r : option (string * string)) : option (string * string) :=
  match r with
  | Some (str, rest) => Some (String c str, rest)
  | None => None
  end.

(** The characters of a string literal after its opening quote, and the
    text after its closing quote. *)
Fixpoint parseChars (s : string) : option (string * string) :=
  match s with
  | EmptyString => None
  | String c r =>
      if Ascii.eqb c dquote then Some (EmptyString, r)
      else if Ascii.eqb c "\"%char then
        match r with
        | String e r' =>
            if Ascii.eqb e "u"%char then
              match r' with
              | String a (String b (String c' (String d r''))) =>
                  match hexValue a, hexValue b, hexValue c', hexValue d with
                  | Some 0%nat, Some 0%nat, Some h, Some l =>
                      consChar (ascii_of_nat (16 * h + l)) (parseChars r'')
                  | _, _, _, _ => None
                  end
              | _ => None
              end
            else
              match unescape e with
              | Some ch => consChar ch (parseChars r')
              | None => None
              end
        | EmptyString => None
        end
      else if (nat_of_ascii c <? 32)%nat then None
      else consChar c (parseChars r)
  end.

Fixpoint spanDigits (s : string) : string * string :=
  match s with
  | String c r =>
      match digitValue c with
      | Some _ => let '(ds, rest) := spanDigits r in (String c ds, rest)
      | None => (EmptyString, s)
      end
  | EmptyString => (EmptyString, EmptyString)
  end.

(** An integer literal; a fraction or an exponent is not read. *)
Definition parseNumber (s : string) : option (js * string) :=
  let '(neg, body) := match s with
                      | String "-" r => (true, r)
                      | _ => (false, s)
                      end in
  let '(ds, rest) := spanDigits body in
  let leadingZero := match ds with
                     | String "0" (String _ _) => true
                     | _ => false
                     end in
  let more := match rest with
              | String c _ =>
                  Ascii.eqb c "."%char || Ascii.eqb c "e"%char || Ascii.eqb c "E"%char
              | EmptyString => false
              end in
  match ds, number 0 ds with
  | String _ _, Some n =>
      if leadingZero || more then None
      else Some (JNum (if neg then - n else n), rest)
  | _, _ => None
  end.

Definition dropChars (n : nat) (s : string) : string :=
  String.substring n (String.length s - n) s.

Fixpoint parseElems (pv : string -> option (js * string)) (n : nat) (s : string)
  : option (list js * string) :=
  match n with
  | O => None
  | S n' =>
      match pv s with
      | Some (v, r) =>
          match skipWs r with
          | String "," r' =>
              match parseElems pv n' r' with
              | Some (vs, r'') => Some (v :: vs, r'')
              | None => None
              end
          | String "]" r' => Some ([v], r')
          | _ => None
          end
      | None => None
      end
  end.

(** Members of an object; a repeated key keeps its first place and takes
    the last value. *)
Fixpoint parseMembers (pv : string -> option (js * string)) (n : nat) (s : string)
    (acc : list (string * js)) : option (list (string * js) * string) :=
  match n with
  | O => None
  | S n' =>
      match skipWs s with
      | String q r =>
          if Ascii.eqb q dquote then
            match parseChars r with
            | Some (k, r1) =>
                match skipWs r1 with
                | String ":" r2 =>
                    match pv r2 with
                    | Some (v, r3) =>
                        let acc' := Js.setField k v acc in
                        match skipWs r3 with
                        | String "," r4 => parseMembers pv n' r4 acc'
                        | String "}" r4 => Some (acc', r4)
                        | _ => None
                        end
                    | None => None
                    end
                | _ => None
                end
            | None => None
            end
          else None
      | EmptyString => None
      end
  end.

Fixpoint parseValue (fuel : nat) (s : string) : option (js * string) :=
  match fuel with
  | O => None
  | S fuel' =>
      let s0 := skipWs s in
      match s0 with
      | EmptyString => None
      | String c r =>
          if JsString.startsWith "null" s0 then Some (JNull, dropChars 4 s0)
          else if JsString.startsWith "true" s0 then Some (JBool true, dropChars 4 s0)
          else if JsString.startsWith "false" s0 then Some (JBool false, dropChars 5 s0)
          else if Ascii.eqb c dquote then
            match parseChars r with
            | Some (str, r') => Some (JStr str, r')
            | None => None
            end
          else if Ascii.eqb c "["%char then
            match skipWs r with
            | String "]" r' => Some (JArr [], r')
            | _ =>
                match parseElems (parseValue fuel') fuel' r with
                | Some (vs, r') => Some (JArr vs, r')
                | None => None
                end
            end
          else if Ascii.eqb c "{"%char then
            match skipWs r with
            | String "}" r' => Some (JObj [], r')
            | _ =>
                match parseMembers (parseValue fuel') fuel' r [] with
                | Some (fs, r') => Some (JObj fs, r')
                | None => None
                end
            end
          else parseNumber s0
      end
  end.

Definition parse (s : string) : option js :=
  match parseValue (2 + String.length s) s with
  | Some (v, rest) =>
      match skipWs rest with
      | EmptyString => Some v
      | _ => None
      end
  | None => None
  end.

End Browser.

(** The reference platform as an instance of the interface. *)
Definition browser : Platform :=
  {| JSON_parse := Browser.parse;
     JSON_text := Browser.text;
     Date_parse := Browser.parseDate;
     Date_toISOString := Browser.toISOString |}.

(* ------------------------------------------------------------------------- *)
(** ** Reachable states and observations *)

Section Observations.
Context `{Platform}.

(** The worlds the widget can be in: freshly mounted on some storage, or one
    event later. *)
Inductive reachable : World -> Prop :=
| reachable_mount st now rndS rndU wd :
    mount st now rndS rndU = Some wd -> reachable wd
| reachable_step wd e :
    reachable wd -> reachable (step wd e).

(** Number of messages of the snapshot [loadChatState] finds, 0 when it
    finds none. *)
Definition persistedCount (st : Storage) : nat :=
  match loadChatState st with
  | Some savedState => length (savedMessages savedState)
  | None => 0%nat
  end.

Definition log (wd : World) : list Message := messages (chat (widget wd)).

End Observations.

Definition emptyStorage : Storage := {| items := ∅; quota := None |}.

Fixpoint repeatChar (n : nat) (c : ascii) : string :=
  match n with
  | O => EmptyString
  | S n' => String c (repeatChar n' c)
  end.

(** A widget mounted by the reference platform on empty storage at time
    1000, used to run concrete scenarios. *)
Definition demoWorld : World :=
  match @mount browser emptyStorage 1000 "s" "u" with
  | Some wd => wd
  | None =>
      {| widget := initialWidget EmptyString EmptyString;
         localStorage := emptyStorage; clock := 0; greetingTimer := None;
         inFlight := 0%nat; mounted := false |}
  end.

(** A visitor says hi, the agent answers with one suggested action of 251
    characters, and the visitor selects it. *)
Definition longLabel : string := repeatChar 251 "a".

Definition longLabelScenario : list Event :=
  [Open; InputChange "hi"; ClickSend "r1";
   AgentReply (Succeeded {| message := "ok"; result_lead_qualification := None;
                            result_suggested_actions := Some [longLabel] |}) "r2";
   ClickQuickReply 0 "r3"].

(** *** Serialisation *)

Section Serialisation.
Context `{Platform}.

(** The timestamp of [m] is a valid date whose ISO string parses back to it. *)
Definition timestampSurvives (m : Message) : Prop :=
  exists t, timestamp m = ValidDate t /\ Date_parse (Date_toISOString t) = ValidDate t.

(** [setItem] accepts the write (the quota is not exceeded). *)
Definition accepted (k v : string) (st : Storage) : Prop :=
  exists st', setItem k v st = Ok st'.

End Serialisation.

(** The [messages] array of a parsed value, when the value is an object
    that has one. *)
Definition messagesArray (parsed : js) : option (list js) :=
  match parsed with
  | JObj fs => match Js.assoc "messages" fs with Some (JArr l) => Some l | _ => None end
  | _ => None
  end.

(** A snapshot of two messages, as the widget builds them. *)
Definition demoSnapshot : ChatState :=
  {| messages :=
       [userMessage 1700000000000 "k3x9q1z7a" "What does it cost?";
        agentMessage 1700000001234 "b72mmd0p4"
          {| message := "Plans start at $10. Shall we set up a call?";
             result_lead_qualification :=
               Some {| is_qualified := true; interest_level := "high";
                       next_action := "Book a consultation" |};
             result_suggested_actions := Some ["Book Now"; "Pricing Info"] |}];
     sessionId := generateSessionId 1699999990000 "s0s0s0s0s";
     userId := "user-" ++ generateId 1699999990000 "u1u1u1u1u" |}.

(** Storage holding only [text] under the snapshot key. *)
Definition storageWith (text : string) : Storage :=
  {| items := {[ STORAGE_KEY := text ]}; quota := None |}.

(** The text of a JSON object that has a [messages] array and neither
    [sessionId] nor [userId]. *)
Definition messagesOnlyText : string :=
  Browser.text (JObj [("messages", JArr [])]).

(** The world right after a mount that restored nothing: the initial
    cells, the greeting timer armed. *)
Definition freshWorld (sid uid : string) (st : Storage) (now : Z) : World :=
  {| widget := initialWidget sid uid; localStorage := st; clock := now;
     greetingTimer := Some (now + AUTO_GREETING_DELAY);
     inFlight := 0%nat; mounted := true |}.

(** The text of a snapshot whose [messages] array is empty. *)
Definition emptySnapshotText : string :=
  @JSON_stringify browser {| messages := []; sessionId := "session-1-old"; userId := "user-1-old" |}.

(** *** Passing time *)



Definition isReset (e : Event) : bool :=
  match e with ClickReset => true | _ => false end.


(** A pending greeting timer implies an empty log and a cleared flag. *)
Definition timerInvariant (wd : World) : Prop :=
  forall d, greetingTimer wd = Some d ->
            hasShownGreeting (widget wd) = false /\ log wd = [].

(** A visitor says hi, the agent answers with a qualification whose hint is
    "Book a consultation", and the visitor minimises the widget. *)
Definition qualifiedScenario : list Event :=
  [Open; InputChange "hi"; ClickSend "r1";
   AgentReply (Succeeded {| message := "Shall we set up a call?";
                            result_lead_qualification :=
                              Some {| is_qualified := true; interest_level := "high";
                                      next_action := "Book a consultation" |};
                            result_suggested_actions := None |}) "r2";
   Minimize].

(** Storage whose quota holds the visitor identifier and nothing more, and
    the widget mounted on it. *)
Definition tightStorage : Storage := {| items := ∅; quota := Some 23%nat |}.

Definition tightWorld : World :=
  Eval vm_compute in
    match @mount browser tightStorage 1000 "s" "u" with
    | Some wd => wd
    | None => demoWorld
    end.

(** A snapshot whose only message has an Invalid Date as timestamp. *)
Definition undatedSnapshot : ChatState :=
  {| messages :=
       [{| id := "1700000000000-k3x9q1z7a"; role := user; content := "hello";
           timestamp := InvalidDate;
           suggested_actions := None; lead_qualification := None |}];
     sessionId := "session-1-s"; userId := "user-1-u" |}.

(** *** The booking prompt, in the words of the specification *)

(** [q] is the lead qualification attached to the most recent agent message
    of the log that carries one. *)
Definition isLatestQualification (l : list Message) (q : LeadQualification) : Prop :=
  exists l1 m l2,
    l = (l1 ++ m :: l2)%list /\ role m = agent /\ lead_qualification m = Some q /\
    forall m', In m' l2 -> role m' = agent -> lead_qualification m' = None.

(** [s] contains [sub] (given in lower case) when letter case is ignored. *)
Definition containsIgnoringCase (s sub : string) : Prop :=
  exists pre mid post, s = pre ++ mid ++ post /\ JsString.toLowerCase mid = sub.

(* ------------------------------------------------------------------------- *)
(** ** Further code of Home.tsx *)

Section Format.
(** [Date.prototype.toLocaleDateString], which depends on the locale. *)
Variable toLocaleDateString : Date -> string.

(** [formatTimestamp(date)], with [now] the time value of [new Date()].  For
    an Invalid Date [diff] is NaN, every comparison is false and the last
    [return] is reached. *)
Definition formatTimestamp (now : Z) (date : Date) : string :=
  match date with
  | InvalidDate => toLocaleDateString date
  | ValidDate t =>
      let diff := now - t in
      let minutes := diff / 60000 in
      if minutes <? 1 then "Just now"
      else if minutes <? 60 then JsString.ofZ minutes ++ "m ago"
      else
        let hours := minutes / 60 in
        if hours <? 24 then JsString.ofZ hours ++ "h ago"
        else toLocaleDateString date
  end.

End Format.

(** The typing flag mirrors the agent calls in flight, of which there is at
    most one. *)
Definition awaitingConsistent (wd : World) : Prop :=
  (isTyping (widget wd) = true /\ inFlight wd = 1%nat) \/
  (isTyping (widget wd) = false /\ inFlight wd = 0%nat).

(** The events of the input row and of the quick-reply row. *)
Definition isInputEvent (e : Event) : bool :=
  match e with
  | InputChange _ | PressEnter _ | ClickSend _ | ClickQuickReply _ _ => true
  | _ => false
  end.

(** The timestamps of [l] are valid, in non-decreasing order and between
    [lo] and [hi]. *)
Fixpoint ascending (lo hi : Z) (l : list Message) : Prop :=
  match l with
  | [] => lo <= hi
  | m :: l' =>
      match timestamp m with
      | ValidDate t => lo <= t /\ ascending t hi l'
      | InvalidDate => False
      end
  end.

(** The log is in chronological order and no message is dated after the
    clock. *)
Definition chronological (wd : World) : Prop :=
  exists lo, ascending lo (clock wd) (log wd).

(** The identifier held by the widget is the one stored under
    'chat_user_id', and it is not empty. *)
Definition visitorIdStored (wd : World) : Prop :=
  getItem USER_ID_KEY (localStorage wd) = Some (userId (chat (widget wd))) /\
  userId (chat (widget wd)) <> EmptyString.

(** Storage whose quota is too small for any snapshot. *)
Definition fullStorage : Storage := {| items := ∅; quota := Some 5%nat |}.

(** What [loadChatState] returns on the storage left by saving
    [demoSnapshot]. *)
Definition loadedDemo : js :=
  Eval vm_compute in
    match @loadChatState browser (@saveChatState browser demoSnapshot emptyStorage) with
    | Some v => v
    | None => JNull
    end.

(** The quick replies the mount effect derives from a restored log: the
    suggested actions of its last agent message, when there are any. *)
Definition restoredQuickReplies (ms : list Message) : list string :=
  match findLast isAgent ms with
  | Some m => match suggested_actions m with Some l => l | None => [] end
  | None => []
  end.

(** The world after reloading on the storage left by saving
    [demoSnapshot]. *)
Definition remountedDemo : World :=
  Eval vm_compute in
    match @mount browser (@saveChatState browser demoSnapshot emptyStorage)
            1700000005000 "s2" "u2" with
    | Some wd => wd
    | None => demoWorld
    end.

(** [MessageBubble]: whether the bubble of [m] carries the "Qualified Lead"
    badge, [message.lead_qualification && message.lead_qualification.is_qualified]. *)
Definition qualifiedBadge (m : Message) : bool :=
  match lead_qualification m with
  | Some q => is_qualified q
  | None => false
  end.

(* ------------------------------------------------------------------------- *)
(** * Properties *)

(** ** Strings *)

Lemma truthy_false_iff (s : string) : JsString.truthy s = false <-> s = EmptyString.
Proof. destruct s; simpl; split; congruence. Qed.

Lemma truthy_true_iff (s : string) : JsString.truthy s = true <-> s <> EmptyString.
Proof. destruct s; simpl; split; congruence. Qed.

Lemma trimStart_length (s : string) :
  (String.length (JsString.trimStart s) <= String.length s)%nat.
Proof.
  induction s as [|c s IH]; simpl; [lia|].
  destruct (JsString.isWhiteSpace c); simpl; lia.
Qed.

Lemma trimEnd_length (s : string) :
  (String.length (JsString.trimEnd s) <= String.length s)%nat.
Proof.
  induction s as [|c s IH]; simpl; [lia|].
  destruct (JsString.trimEnd s) as [|c' t].
  - destruct (JsString.isWhiteSpace c); simpl; lia.
  - simpl in *. lia.
Qed.

Lemma trim_length (s : string) :
  (String.length (JsString.trim s) <= String.length s)%nat.
Proof.
  unfold JsString.trim.
  etransitivity; [apply trimEnd_length | apply trimStart_length].
Qed.

(** ** Sending a message *)

Section SendProperties.
Context `{Platform}.

Lemma commit_widget (prev : Widget) (wd : World) :
  widget (commit prev wd) = widget wd.
Proof. reflexivity. Qed.

Lemma handleSendMessage_blank now rnd text w :
  JsString.trim text = EmptyString -> handleSendMessage now rnd text w = None.
Proof. intros E. unfold handleSendMessage. rewrite E. reflexivity. Qed.

Lemma handleSendMessage_some now rnd text w :
  JsString.trim text <> EmptyString ->
  exists w',
    handleSendMessage now rnd text w = Some w' /\
    messages (chat w') =
      (messages (chat w) ++ [userMessage now rnd (JsString.trim text)])%list /\
    inputValue w' = EmptyString /\ isTyping w' = true /\
    showQuickReplies w' = false /\
    currentQuickReplies w' = currentQuickReplies w /\
    hasShownGreeting w' = hasShownGreeting w /\ isOpen w' = isOpen w /\
    sessionId (chat w') = sessionId (chat w) /\ userId (chat w') = userId (chat w) /\
    messagesRef w' = S (messagesRef w).
Proof.
  intros E. apply truthy_true_iff in E. unfold handleSendMessage. rewrite E. simpl.
  eexists; split; [reflexivity|]. simpl. repeat split.
Qed.

Lemma resume_messages now rnd o w :
  messages (chat (handleSendMessage_resume now rnd o w)) =
    (messages (chat w) ++ [replyMessage now rnd o])%list.
Proof.
  destruct o as [r| |]; simpl; try reflexivity.
  destruct (result_suggested_actions r) as [[|a l]|]; reflexivity.
Qed.

Lemma replyMessage_agent now rnd o : role (replyMessage now rnd o) = agent.
Proof. destruct o; reflexivity. Qed.

End SendProperties.

(** C4.  [send] on a text whose trimmed form is empty changes nothing.  On
    any other text it appends exactly one user message carrying the trimmed
    text, before any reply, and issues one agent call; when a pending call
    resolves, exactly one agent message is appended, whether the outcome is
    a success payload, a non-success payload or a thrown failure. *)
Theorem send_one_user_then_one_agent `{Platform} (wd : World) (rnd text : string) :
  (JsString.trim text = EmptyString -> send rnd text wd = wd) /\
  (JsString.trim text <> EmptyString ->
     let wd1 := send rnd text wd in
     (exists m,
        messages (chat (widget wd1)) = (messages (chat (widget wd)) ++ [m])%list /\
        role m = user /\ content m = JsString.trim text) /\
     inFlight wd1 = S (inFlight wd) /\
     forall (wd2 : World) (o : Outcome) (rnd' : string),
       inFlight wd2 <> 0%nat ->
       (o = Failed \/ o = Rejected \/ exists r, o = Succeeded r) /\
       exists m',
         messages (chat (widget (resume o rnd' wd2))) =
           (messages (chat (widget wd2)) ++ [m'])%list /\
         role m' = agent /\
         inFlight (resume o rnd' wd2) = pred (inFlight wd2)).
Proof.
  split.
  - intros E. unfold send. rewrite (handleSendMessage_blank _ _ _ _ E). reflexivity.
  - intros E wd1. subst wd1. unfold send.
    destruct (handleSendMessage_some (clock wd) rnd text (widget wd) E)
      as (w' & -> & Hm & _).
    split; [|split].
    + exists (userMessage (clock wd) rnd (JsString.trim text)).
      rewrite commit_widget. simpl. auto.
    + reflexivity.
    + intros wd2 o rnd' Hn. split.
      { destruct o as [r| |]; eauto. }
      exists (replyMessage (clock wd2) rnd' o).
      unfold resume. destruct (inFlight wd2) as [|n] eqn:En; [congruence|].
      rewrite commit_widget. simpl. rewrite resume_messages.
      split; [reflexivity|]. split; [apply replyMessage_agent | reflexivity].
Qed.

(** ** The character limit *)

Section InputLimit.
Context `{Platform}.

Lemma restore_inputValue ms w : inputValue (restore ms w) = inputValue w.
Proof.
  unfold restore. destruct (findLast isAgent ms) as [m|]; [|reflexivity].
  destruct (suggested_actions m) as [[|a l]|]; reflexivity.
Qed.

(** What the mount effect can leave: the cells untouched, or a restored log. *)
Lemma mountEffect_cases w st w1 :
  mountEffect w st = Some w1 ->
  w1 = w \/ exists ms, ms <> [] /\ w1 = restore ms w.
Proof.
  unfold mountEffect. destruct (loadChatState st) as [v|]; [|intros [= <-]; auto].
  destruct (0 <? length (savedMessages v))%nat eqn:El; [|intros [= <-]; auto].
  destruct (asMessages (savedMessages v)) as [ms|] eqn:Ea; [|discriminate].
  intros [= <-]. right. exists ms. split; [|reflexivity].
  intros ->. destruct (savedMessages v) as [|x l]; [discriminate|].
  simpl in Ea. destruct (asMessage x); [destruct (asMessages l)|]; discriminate.
Qed.

Lemma mount_inputValue st now rndS rndU wd :
  mount st now rndS rndU = Some wd -> inputValue (widget wd) = EmptyString.
Proof.
  unfold mount. destruct (generateUserId now rndU st) as [[uid st1]|]; [|discriminate].
  destruct (mountEffect _ st1) as [w1|] eqn:Em; [|discriminate].
  intros [= <-]. rewrite commit_widget. simpl.
  destruct (mountEffect_cases _ _ _ Em) as [->|(ms & _ & ->)];
    [|rewrite restore_inputValue]; reflexivity.
Qed.

Lemma send_log rnd text wd :
  (JsString.trim text = EmptyString /\ send rnd text wd = wd) \/
  (JsString.trim text <> EmptyString /\
   log (send rnd text wd) =
     (log wd ++ [userMessage (clock wd) rnd (JsString.trim text)])%list /\
   inputValue (widget (send rnd text wd)) = EmptyString).
Proof.
  destruct (JsString.trim text) as [|c t] eqn:E.
  - left. split; [reflexivity|]. unfold send.
    rewrite (handleSendMessage_blank _ _ _ _ E). reflexivity.
  - right. split; [discriminate|]. unfold send, log.
    destruct (handleSendMessage_some (clock wd) rnd text (widget wd))
      as (w' & -> & Hm & Hi & _); [rewrite E; discriminate|].
    rewrite commit_widget. simpl. rewrite Hm, Hi, E. auto.
Qed.

Lemma handleInputChange_length value w :
  (String.length (inputValue w) <= MAX_CHAR_LIMIT)%nat ->
  (String.length (inputValue (handleInputChange value w)) <= MAX_CHAR_LIMIT)%nat.
Proof.
  intros Hw. unfold handleInputChange.
  destruct (String.length value <=? MAX_CHAR_LIMIT)%nat eqn:E; [|exact Hw].
  simpl. apply Nat.leb_le in E. exact E.
Qed.

Lemma step_inputValue wd e :
  (String.length (inputValue (widget wd)) <= MAX_CHAR_LIMIT)%nat ->
  (String.length (inputValue (widget (step wd e))) <= MAX_CHAR_LIMIT)%nat.
Proof.
  intros Hw.
  assert (Hsend : forall rnd text,
            (String.length (inputValue (widget (send rnd text wd))) <= MAX_CHAR_LIMIT)%nat).
  { intros rnd text. destruct (send_log rnd text wd) as [[_ ->]|(_ & _ & ->)];
      [exact Hw | simpl; unfold MAX_CHAR_LIMIT; lia]. }
  unfold step. destruct (mounted wd); simpl; [|exact Hw].
  destruct e as [| |value|rnd|rnd|i rnd| |o rnd|ms rnd|]; simpl.
  - destruct (isOpen (widget wd)); exact Hw.
  - destruct (isOpen (widget wd)); exact Hw.
  - destruct (isOpen (widget wd) && negb (isTyping (widget wd))); [|exact Hw].
    rewrite commit_widget. simpl. apply handleInputChange_length, Hw.
  - destruct (isOpen (widget wd) && negb (isTyping (widget wd))); [apply Hsend|exact Hw].
  - destruct (isOpen (widget wd) && negb (sendDisabled (widget wd))); [apply Hsend|exact Hw].
  - destruct (quickRepliesShown (widget wd)); [|exact Hw].
    destruct (currentQuickReplies (widget wd) !! i); [apply Hsend|exact Hw].
  - destruct (isOpen (widget wd)); exact Hw.
  - unfold resume. destruct (inFlight wd); [exact Hw|].
    rewrite commit_widget. simpl.
    destruct o as [r| |]; simpl; try exact Hw.
    destruct (result_suggested_actions r) as [[|a l]|]; exact Hw.
  - unfold elapse.
    destruct (match greetingTimer wd with Some d => d <=? clock wd + Z.of_nat ms | None => false end);
      exact Hw.
  - exact Hw.
Qed.

(** The input buffer never holds more than [MAX_CHAR_LIMIT] characters. *)
Lemma reachable_inputValue wd :
  reachable wd -> (String.length (inputValue (widget wd)) <= MAX_CHAR_LIMIT)%nat.
Proof.
  induction 1 as [st now rndS rndU wd Hm | wd e _ IH].
  - rewrite (mount_inputValue _ _ _ _ _ Hm). simpl. unfold MAX_CHAR_LIMIT. lia.
  - apply step_inputValue, IH.
Qed.

End InputLimit.

(** C1 (as amended).  A user message sent from the input buffer, by Enter or
    by the send button, has at most 250 characters, because the buffer never
    holds more.  A quick-reply selection sends the trimmed label of the
    button, whose length is bounded by the label's and by nothing else. *)
Theorem user_message_length `{Platform} (wd : World) (e : Event) :
  reachable wd ->
  ((exists rnd, e = PressEnter rnd \/ e = ClickSend rnd) ->
     log (step wd e) = log wd \/
     exists m, log (step wd e) = (log wd ++ [m])%list /\ role m = user /\
               (String.length (content m) <= MAX_CHAR_LIMIT)%nat) /\
  (forall i rnd, e = ClickQuickReply i rnd ->
     log (step wd e) = log wd \/
     exists action m,
       currentQuickReplies (widget wd) !! i = Some action /\
       log (step wd e) = (log wd ++ [m])%list /\ role m = user /\
       content m = JsString.trim action /\
       (String.length (content m) <= String.length action)%nat).
Proof.
  intros Hr. pose proof (reachable_inputValue wd Hr) as Hlen.
  assert (Hbuf : forall rnd,
            log (send rnd (inputValue (widget wd)) wd) = log wd \/
            exists m, log (send rnd (inputValue (widget wd)) wd) = (log wd ++ [m])%list /\
                      role m = user /\ (String.length (content m) <= MAX_CHAR_LIMIT)%nat).
  { intros rnd. destruct (send_log rnd (inputValue (widget wd)) wd) as [[_ ->]|(_ & -> & _)];
      [left; reflexivity|right].
    eexists; split; [reflexivity|]. split; [reflexivity|]. simpl.
    etransitivity; [apply trim_length | exact Hlen]. }
  split.
  - intros (rnd & [-> | ->]); unfold step; destruct (mounted wd); simpl; auto.
    + destruct (isOpen (widget wd) && negb (isTyping (widget wd))); auto.
    + destruct (isOpen (widget wd) && negb (sendDisabled (widget wd))); auto.
  - intros i rnd ->. unfold step. destruct (mounted wd); simpl; auto.
    destruct (quickRepliesShown (widget wd)); auto.
    destruct (currentQuickReplies (widget wd) !! i) as [action|] eqn:Ea; auto.
    destruct (send_log rnd action wd) as [[_ ->]|(_ & -> & _)]; [left; reflexivity|right].
    exists action. eexists. split; [reflexivity|]. split; [reflexivity|].
    split; [reflexivity|]. split; [reflexivity|]. simpl. apply trim_length.
Qed.

Lemma reachable_run `{Platform} (es : list Event) (wd : World) :
  reachable wd -> reachable (run wd es).
Proof.
  revert wd. induction es as [|e es IH]; intros wd Hr; [exact Hr|].
  simpl. apply IH. apply reachable_step, Hr.
Qed.

Lemma demoWorld_reachable : @reachable browser demoWorld.
Proof.
  apply (@reachable_mount browser emptyStorage 1000 "s" "u").
  vm_compute. reflexivity.
Qed.

Lemma user_message_length_witness :
  @reachable browser (@run browser demoWorld [Open; InputChange "hi"]) /\
  (@log (@step browser (@run browser demoWorld [Open; InputChange "hi"]) (ClickSend "r1"))
     = log (@run browser demoWorld [Open; InputChange "hi"]) \/
   exists m,
     log (@step browser (@run browser demoWorld [Open; InputChange "hi"]) (ClickSend "r1"))
       = (log (@run browser demoWorld [Open; InputChange "hi"]) ++ [m])%list /\
     role m = user /\ (String.length (content m) <= MAX_CHAR_LIMIT)%nat).
Proof.
  split.
  - apply reachable_run, demoWorld_reachable.
  - apply (@user_message_length browser
             (@run browser demoWorld [Open; InputChange "hi"]) (ClickSend "r1")).
    + apply reachable_run, demoWorld_reachable.
    + exists "r1". right. reflexivity.
Defined.

(** C1 as stated fails: the label of a quick-reply button comes from the
    agent and is sent as it is, so a user message of 251 characters enters
    the log. *)
Lemma quick_reply_exceeds_limit :
  exists wd m,
    @reachable browser wd /\ In m (log wd) /\ role m = user /\
    (MAX_CHAR_LIMIT < String.length (content m))%nat.
Proof.
  exists (@run browser demoWorld longLabelScenario), (userMessage 1000 "r3" longLabel).
  split; [apply reachable_run, demoWorld_reachable|].
  split; [|split].
  - vm_compute. right. right. left. reflexivity.
  - reflexivity.
  - vm_compute. lia.
Qed.

(** ** Reset *)

Section Reset.
Context `{Platform}.

Lemma saveEffect_empty w st : messages (chat w) = [] -> saveEffect w st = st.
Proof. intros E. unfold saveEffect. rewrite E. reflexivity. Qed.

Lemma commit_storage_empty prev wd :
  messages (chat (widget wd)) = [] ->
  localStorage (commit prev wd) = localStorage wd.
Proof.
  intros E. unfold commit. simpl.
  destruct (saveDepsChanged prev (widget wd)); [apply saveEffect_empty, E|reflexivity].
Qed.

Lemma getItem_removeItem k st : getItem k (removeItem k st) = None.
Proof. unfold getItem, removeItem. simpl. apply lookup_delete_eq. Qed.

Lemma getItem_removeItem_ne k k' st :
  k <> k' -> getItem k' (removeItem k st) = getItem k' st.
Proof. intros Hk. unfold getItem, removeItem. simpl. apply lookup_delete_ne, Hk. Qed.

End Reset.

(** C2 (as amended).  From every prior state, reset leaves the message log
    empty, no snapshot under the storage key and the greeting-shown flag
    cleared; the quick-reply flag and the quick-reply list are left as they
    were. *)
Theorem reset_clears_conversation `{Platform} (wd : World) :
  log (reset wd) = [] /\
  getItem STORAGE_KEY (localStorage (reset wd)) = None /\
  hasShownGreeting (widget (reset wd)) = false /\
  showQuickReplies (widget (reset wd)) = showQuickReplies (widget wd) /\
  currentQuickReplies (widget (reset wd)) = currentQuickReplies (widget wd).
Proof.
  unfold reset, handleReset, log. cbv beta iota.
  split; [reflexivity|]. split; [|repeat split].
  rewrite commit_storage_empty by reflexivity. apply getItem_removeItem.
Qed.

(** C2 as stated fails: after the auto-greeting has put up its four quick
    replies, reset empties the log and the quick-reply row is still
    rendered. *)
Lemma reset_leaves_quick_replies :
  exists wd,
    @reachable browser wd /\ mounted wd = true /\ isOpen (widget wd) = true /\
    log (@step browser wd ClickReset) = [] /\
    quickRepliesShown (widget (@step browser wd ClickReset)) = true.
Proof.
  exists (@run browser demoWorld [Elapse 5000 "g"; Open]).
  split; [apply reachable_run, demoWorld_reachable|].
  repeat split; vm_compute; reflexivity.
Qed.

Lemma send_one_user_then_one_agent_witness :
  JsString.trim "  hello " <> EmptyString /\
  exists m,
    messages (chat (widget (@send browser "r1" "  hello " demoWorld))) =
      (messages (chat (widget demoWorld)) ++ [m])%list /\
    role m = user /\ content m = JsString.trim "  hello ".
Proof.
  split; [vm_compute; discriminate|].
  apply (proj2 (@send_one_user_then_one_agent browser demoWorld "r1" "  hello ")).
  vm_compute. discriminate.
Defined.

(** ** The booking prompt *)

Lemma append_cons (c : ascii) (a b : string) : String c a ++ b = String c (a ++ b).
Proof. reflexivity. Qed.

Lemma append_nil (b : string) : EmptyString ++ b = b.
Proof. reflexivity. Qed.

Lemma startsWith_iff (p s : string) :
  JsString.startsWith p s = true <-> exists post, s = p ++ post.
Proof.
  revert s. induction p as [|a p IH]; intros s; simpl.
  - split; [intros _; exists s; reflexivity | reflexivity].
  - destruct s as [|b s].
    + split; [discriminate | intros (post & E); rewrite append_cons in E; discriminate].
    + destruct (Ascii.eqb_spec a b) as [->|Hne].
      * rewrite IH. split; intros (post & E); exists post;
          rewrite append_cons in *; congruence.
      * split; [discriminate|]. intros (post & E). rewrite append_cons in E. congruence.
Qed.

Lemma includes_iff (s sub : string) :
  JsString.includes s sub = true <-> exists pre post, s = pre ++ sub ++ post.
Proof.
  split.
  - induction s as [|c s IH]; simpl; intros Hi; apply orb_true_iff in Hi.
    + destruct Hi as [Hs|]; [|discriminate].
      apply startsWith_iff in Hs as (post & E). exists EmptyString, post. exact E.
    + destruct Hi as [Hs|Hi].
      * apply startsWith_iff in Hs as (post & E). exists EmptyString, post. exact E.
      * destruct (IH Hi) as (pre & post & ->). exists (String c pre), post. reflexivity.
  - intros (pre & post & ->). induction pre as [|c pre IH].
    + assert (Hs : JsString.startsWith sub (sub ++ post) = true)
        by (apply startsWith_iff; eauto).
      rewrite append_nil. destruct (sub ++ post); simpl; rewrite Hs; reflexivity.
    + rewrite append_cons. simpl. rewrite IH. apply orb_true_r.
Qed.

Lemma toLowerCase_app (a b : string) :
  JsString.toLowerCase (a ++ b) = JsString.toLowerCase a ++ JsString.toLowerCase b.
Proof.
  induction a as [|c a IH]; [reflexivity|].
  rewrite append_cons. simpl. rewrite IH. reflexivity.
Qed.

Lemma toLowerCase_split (s x y : string) :
  JsString.toLowerCase s = x ++ y ->
  exists a b, s = a ++ b /\ JsString.toLowerCase a = x /\ JsString.toLowerCase b = y.
Proof.
  revert s. induction x as [|c x IH]; intros s E.
  - exists EmptyString, s. auto.
  - destruct s as [|c0 s]; [discriminate|]. rewrite append_cons in E. simpl in E.
    injection E as Ec E.
    destruct (IH s E) as (a & b & -> & Ha & Hb).
    exists (String c0 a), b. simpl. rewrite Ha, Ec. auto.
Qed.

Lemma includes_lower_iff (s sub : string) :
  JsString.includes (JsString.toLowerCase s) sub = true <-> containsIgnoringCase s sub.
Proof.
  rewrite includes_iff. unfold containsIgnoringCase. split.
  - intros (pre & post & E).
    apply toLowerCase_split in E as (a & r & -> & _ & E).
    apply toLowerCase_split in E as (b & c & -> & Hb & _).
    exists a, b, c. auto.
  - intros (a & b & c & -> & Hb).
    exists (JsString.toLowerCase a), (JsString.toLowerCase c).
    rewrite !toLowerCase_app, Hb. reflexivity.
Qed.

Lemma find_skip {A} (p : A -> bool) (a b : list A) :
  (forall y, In y a -> p y = false) -> List.find p (a ++ b)%list = List.find p b.
Proof.
  induction a as [|x a IH]; intros Ha; simpl; [reflexivity|].
  rewrite (Ha x) by (left; reflexivity). apply IH. intros y Hy. apply Ha. right. exact Hy.
Qed.

Lemma find_split {A} (p : A -> bool) (l : list A) (x : A) :
  List.find p l = Some x ->
  exists l1 l2, l = (l1 ++ x :: l2)%list /\ p x = true /\ forall y, In y l1 -> p y = false.
Proof.
  induction l as [|a l IH]; simpl; [discriminate|].
  destruct (p a) eqn:Ea.
  - intros [= ->]. exists [], l. simpl. split; [reflexivity|]. split; [exact Ea|]. intros y [].
  - intros Hf. destruct (IH Hf) as (l1 & l2 & -> & Hx & Hl1).
    exists (a :: l1), l2. split; [reflexivity|]. split; [exact Hx|].
    intros y [<-|Hy]; [exact Ea | apply Hl1, Hy].
Qed.

(** [findLast] returns the last element that satisfies the predicate. *)
Lemma findLast_iff {A} (p : A -> bool) (l : list A) (x : A) :
  findLast p l = Some x <->
  exists l1 l2, l = (l1 ++ x :: l2)%list /\ p x = true /\ forall y, In y l2 -> p y = false.
Proof.
  unfold findLast. split.
  - intros Hf. apply find_split in Hf as (r1 & r2 & Hr & Hx & Hr1).
    exists (rev r2), (rev r1). split; [|split; [exact Hx|]].
    + rewrite <- (rev_involutive l), Hr, rev_app_distr. simpl.
      rewrite <- app_assoc. reflexivity.
    + intros y Hy. apply Hr1. apply in_rev. exact Hy.
  - intros (l1 & l2 & -> & Hx & Hl2).
    rewrite rev_app_distr. simpl. rewrite <- app_assoc.
    rewrite find_skip by (intros y Hy; apply Hl2, in_rev; exact Hy).
    simpl. rewrite Hx. reflexivity.
Qed.

Lemma carriesQualification_iff (m : Message) :
  isAgent m && isSome (lead_qualification m) = false <->
  (role m = agent -> lead_qualification m = None).
Proof.
  unfold isAgent. destruct (role m), (lead_qualification m); simpl;
    split; try reflexivity; try discriminate; intros Hx; try (specialize (Hx eq_refl)); congruence.
Qed.

Lemma latestQualification_iff (w : Widget) (q : LeadQualification) :
  latestQualification w = Some q <-> isLatestQualification (messages (chat w)) q.
Proof.
  unfold latestQualification, isLatestQualification. split.
  - destruct (findLast _ (messages (chat w))) as [m|] eqn:Ef; [|discriminate].
    intros Hq. apply findLast_iff in Ef as (l1 & l2 & El & Hm & Hl2).
    exists l1, m, l2. split; [exact El|].
    apply andb_true_iff in Hm as [Ha _].
    split; [unfold isAgent in Ha; destruct (role m); [discriminate|reflexivity]|].
    split; [exact Hq|]. intros m' Hin. apply carriesQualification_iff, Hl2, Hin.
  - intros (l1 & m & l2 & El & Hr & Hq & Hl2).
    assert (Ef : findLast (fun m => isAgent m && isSome (lead_qualification m))
                   (messages (chat w)) = Some m).
    { apply findLast_iff. exists l1, l2. split; [exact El|]. split.
      - unfold isAgent. rewrite Hr, Hq. reflexivity.
      - intros y Hy. apply carriesQualification_iff, Hl2, Hy. }
    rewrite Ef. exact Hq.
Qed.

(** The card expression yields the card exactly when the latest
    qualification is qualified and its hint contains "book". *)
Lemma bookingCard_iff (w : Widget) :
  bookingCard w = true <->
  exists q,
    isLatestQualification (messages (chat w)) q /\
    is_qualified q = true /\ containsIgnoringCase (next_action q) "book".
Proof.
  unfold bookingCard. split.
  - destruct (latestQualification w) as [q|] eqn:El; [|discriminate].
    intros Hb. exists q. split; [apply latestQualification_iff, El|].
    unfold BookingCTA in Hb.
    destruct (is_qualified q); simpl in Hb; [|discriminate].
    split; [reflexivity|]. apply includes_lower_iff.
    destruct (JsString.includes (JsString.toLowerCase (next_action q)) "book");
      [reflexivity | discriminate].
  - intros (q & Hl & Hq & Hc). apply latestQualification_iff in Hl. rewrite Hl.
    unfold BookingCTA. rewrite Hq. apply includes_lower_iff in Hc. rewrite Hc. reflexivity.
Qed.

(** C5 (as amended).  The booking prompt is rendered exactly when the widget
    is expanded and the latest qualification, the one on the most recent
    agent message that carries one, is qualified and its next-action hint
    contains "book" with letter case ignored; on a collapsed widget it is
    never rendered. *)
Theorem booking_prompt_iff (w : Widget) :
  (bookingPromptShown w = true <->
   isOpen w = true /\
   exists q,
     isLatestQualification (messages (chat w)) q /\
     is_qualified q = true /\ containsIgnoringCase (next_action q) "book") /\
  (isOpen w = false -> bookingPromptShown w = false).
Proof.
  split.
  - rewrite <- bookingCard_iff. unfold bookingPromptShown.
    destruct (isOpen w); cbn [negb].
    + split; [intros Hb; split; [reflexivity | exact Hb] | intros [_ Hb]; exact Hb].
    + split; [discriminate | intros [Ho _]; discriminate].
  - intros Ho. unfold bookingPromptShown. rewrite Ho. reflexivity.
Qed.

(** C5 as stated fails on a collapsed widget: after a qualified reply whose
    hint is "Book a consultation" the visitor minimises the widget; the
    latest qualification still satisfies the condition, and the render
    returns the floating button alone. *)
Lemma booking_prompt_hidden_when_collapsed :
  exists wd q,
    @reachable browser wd /\
    isLatestQualification (log wd) q /\ is_qualified q = true /\
    containsIgnoringCase (next_action q) "book" /\
    isOpen (widget wd) = false /\ bookingPromptShown (widget wd) = false.
Proof.
  exists (@run browser demoWorld qualifiedScenario),
         {| is_qualified := true; interest_level := "high";
            next_action := "Book a consultation" |}.
  split; [apply reachable_run, demoWorld_reachable|].
  split.
  { apply latestQualification_iff. vm_compute. reflexivity. }
  split; [reflexivity|].
  split.
  { exists EmptyString, "Book", " a consultation". split; reflexivity. }
  split; vm_compute; reflexivity.
Qed.

Example booking_prompt_examples :
  BookingCTA (Some {| is_qualified := true; interest_level := "high";
                      next_action := "Book a consultation" |}) = true /\
  BookingCTA (Some {| is_qualified := true; interest_level := "high";
                      next_action := "Send info" |}) = false /\
  BookingCTA (Some {| is_qualified := false; interest_level := "low";
                      next_action := "Book a consultation" |}) = false.
Proof. repeat split. Qed.

(** ** Saving and loading *)

Section RoundTrip.
Context `{Platform}.

Lemma asStrings_map (l : list string) : asStrings (map JStr l) = Some l.
Proof. induction l as [|x l IH]; simpl; [reflexivity | rewrite IH; reflexivity]. Qed.

Lemma asQualification_encode (q : LeadQualification) :
  asQualification (encodeQualification q) = Some q.
Proof. destruct q. reflexivity. Qed.

Lemma asRole_roleName (r : Role) : asRole (JStr (roleName r)) = Some r.
Proof. destruct r; reflexivity. Qed.

Lemma rehydrate_encodeMessage (m : Message) :
  exists v, rehydrate (encodeMessage m) = Ok v /\
            (timestampSurvives m -> asMessage v = Some m).
Proof.
  unfold rehydrate, encodeMessage. simpl. eexists. split; [reflexivity|].
  intros (t & Et & Hp). destruct m as [i r c ts sa lq]. simpl in *. subst ts.
  simpl. rewrite Hp.
  destruct sa as [l|], lq as [q|]; simpl;
    rewrite ?asRole_roleName, ?asStrings_map, ?asQualification_encode;
    destruct r; try destruct q; reflexivity.
Qed.

Lemma mapR_rehydrate (ms : list Message) :
  exists l, mapR rehydrate (map encodeMessage ms) = Ok l /\
            length l = length ms /\
            (Forall timestampSurvives ms -> asMessages l = Some ms).
Proof.
  induction ms as [|m ms (l & El & Hlen & Hl)].
  - exists []. simpl. auto.
  - destruct (rehydrate_encodeMessage m) as (v & Ev & Hv).
    exists (v :: l). cbn [map mapR]. rewrite Ev. cbn [bindR]. rewrite El. cbn [bindR].
    split; [reflexivity|]. split; [simpl; congruence|].
    intros Hf. inversion Hf as [|? ? Hm Hms]; subst.
    simpl. rewrite (Hv Hm), (Hl Hms). reflexivity.
Qed.

Lemma getItem_setItem k v st st' :
  setItem k v st = Ok st' -> getItem k st' = Some v.
Proof.
  unfold setItem, getItem. destruct (quota st) as [q|];
    [destruct (q <? usage _)%nat; [discriminate|]|];
    intros [= <-]; simpl; apply lookup_insert_eq.
Qed.

Lemma getItem_setItem_ne k k' v st st' :
  k <> k' -> setItem k v st = Ok st' -> getItem k' st' = getItem k' st.
Proof.
  intros Hk. unfold setItem, getItem. destruct (quota st) as [q|];
    [destruct (q <? usage _)%nat; [discriminate|]|];
    intros [= <-]; simpl; apply lookup_insert_ne, Hk.
Qed.

(** What [loadChatState] returns on the text written for [cs]. *)
Lemma loadChatState_stored (cs : ChatState) (st : Storage) :
  getItem STORAGE_KEY st = Some (JSON_stringify cs) ->
  JSON_parse (JSON_stringify cs) = Some (encodeState cs) ->
  JSON_parse EmptyString = None ->
  exists l,
    loadChatState st =
      Some (JObj [("messages", JArr l); ("sessionId", JStr (sessionId cs));
                  ("userId", JStr (userId cs))]) /\
    length l = length (messages cs) /\
    (Forall timestampSurvives (messages cs) -> asMessages l = Some (messages cs)).
Proof.
  intros Hg Hp He.
  destruct (mapR_rehydrate (messages cs)) as (l & El & Hlen & Hl).
  exists l. split; [|auto].
  unfold loadChatState, loadChatState_try. rewrite Hg.
  destruct (JSON_stringify cs) as [|c t] eqn:Et; [congruence|].
  cbn [JsString.truthy]. rewrite Hp. unfold encodeState.
  cbn [Js.getProp Js.assoc String.eqb Ascii.eqb Bool.eqb bindR arrayMap].
  simpl Js.assoc. cbn [bindR arrayMap]. rewrite El. reflexivity.
Qed.

End RoundTrip.

(** C6 (as amended).  Saving a snapshot and loading it gives back a snapshot with the
    same messages, session identifier and visitor identifier, each timestamp
    equal to the original after being re-hydrated from its ISO string (a
    [Date] and its ISO string both have millisecond precision).  Assumed of
    the platform: the call to [setItem] is accepted, [JSON.parse] reads back
    the text [JSON.stringify] printed and rejects the empty string, and every
    timestamp is a valid date that [Date.parse] reads back from its ISO
    string. *)
Theorem save_load_roundtrip `{Platform} (cs : ChatState) (st : Storage) :
  accepted STORAGE_KEY (JSON_stringify cs) st ->
  JSON_parse (JSON_stringify cs) = Some (encodeState cs) ->
  JSON_parse EmptyString = None ->
  Forall timestampSurvives (messages cs) ->
  exists v, loadChatState (saveChatState cs st) = Some v /\ asChatState v = Some cs.
Proof.
  intros (st' & Hs) Hp He Hts.
  unfold saveChatState. rewrite Hs. cbn [tryCatch].
  destruct (loadChatState_stored cs st' (getItem_setItem _ _ _ _ Hs) Hp He)
    as (l & -> & _ & Hl).
  eexists. split; [reflexivity|].
  simpl. rewrite (Hl Hts). destruct cs. reflexivity.
Qed.

Lemma save_load_roundtrip_witness :
  exists v,
    @loadChatState browser (@saveChatState browser demoSnapshot emptyStorage) = Some v /\
    asChatState v = Some demoSnapshot.
Proof.
  apply (@save_load_roundtrip browser demoSnapshot emptyStorage).
  - unfold accepted, setItem. simpl. eexists. reflexivity.
  - vm_compute. reflexivity.
  - vm_compute. reflexivity.
  - repeat constructor; eexists; (split; [reflexivity | vm_compute; reflexivity]).
Defined.

(** An Invalid Date is printed as [null], which [new Date] reads as the
    epoch: only valid timestamps come back unchanged. *)
Lemma invalid_date_reloads_as_epoch `{Platform} :
  newDate (Some (dateToJSON InvalidDate)) = ValidDate 0.
Proof. reflexivity. Qed.

(** C6 as stated fails for a snapshot with an Invalid Date, which is printed
    as [null] and re-hydrated as the epoch, and for a write that storage
    refuses, after which there is nothing to load. *)
Lemma invalid_date_or_refused_write_not_restored :
  (exists v,
     @loadChatState browser (@saveChatState browser undatedSnapshot emptyStorage) = Some v /\
     asChatState v <> Some undatedSnapshot /\
     option_map (fun cs => map timestamp (messages cs)) (asChatState v)
       = Some [ValidDate 0]) /\
  @loadChatState browser (@saveChatState browser demoSnapshot fullStorage) = None.
Proof.
  split.
  - eexists. split; [vm_compute; reflexivity|].
    split; [vm_compute; discriminate | vm_compute; reflexivity].
  - vm_compute. reflexivity.
Qed.

(** ** Loading never throws *)

Section Loading.
Context `{Platform}.

Lemma assoc_setField (k : string) (v : js) (fs : list (string * js)) :
  Js.assoc k (Js.setField k v fs) = Some v.
Proof.
  induction fs as [|[k' x] fs IH]; cbn [Js.assoc Js.setField].
  - rewrite String.eqb_refl. reflexivity.
  - destruct (String.eqb k k') eqn:Ek; cbn [Js.assoc].
    + rewrite String.eqb_refl. reflexivity.
    + rewrite Ek. exact IH.
Qed.

Lemma rehydrate_cases (v : js) :
  (v = JNull /\ rehydrate v = Throw TypeError) \/
  (v <> JNull /\ exists v', rehydrate v = Ok v').
Proof.
  destruct v; [left; split; reflexivity | right; split; [discriminate | eexists; reflexivity] ..].
Qed.

Lemma mapR_rehydrate_cases (l : list js) :
  (In JNull l /\ mapR rehydrate l = Throw TypeError) \/
  (~ In JNull l /\ exists l', mapR rehydrate l = Ok l' /\ length l' = length l).
Proof.
  induction l as [|v l IH].
  - right. split; [intros []|]. exists []. split; reflexivity.
  - cbn [mapR]. destruct (rehydrate_cases v) as [[-> Ev]|[Hv (v' & Ev)]]; rewrite Ev; cbn [bindR].
    + left. split; [left; reflexivity | reflexivity].
    + destruct IH as [[Hin El]|[Hnin (l' & El & Hlen)]]; rewrite El; cbn [bindR].
      * left. split; [right; exact Hin | reflexivity].
      * right. split.
        { intros [E|Hin]; [apply Hv; congruence | exact (Hnin Hin)]. }
        exists (v' :: l'). split; [reflexivity | simpl; congruence].
Qed.

(** The [try] block on a parsed value. *)
Lemma load_parsed (parsed : js) :
  match messagesArray parsed with
  | Some l =>
      (In JNull l /\
       (letR msgs <- Js.getProp parsed "messages" in
        letR mapped <- arrayMap rehydrate msgs in
        Ok (Some (assignMessages parsed mapped))) = Throw TypeError) \/
      (~ In JNull l /\ exists l',
         length l' = length l /\
         (letR msgs <- Js.getProp parsed "messages" in
          letR mapped <- arrayMap rehydrate msgs in
          Ok (Some (assignMessages parsed mapped)))
         = Ok (Some (assignMessages parsed (JArr l'))))
  | None =>
      (letR msgs <- Js.getProp parsed "messages" in
       letR mapped <- arrayMap rehydrate msgs in
       Ok (Some (assignMessages parsed mapped))) = Throw TypeError
  end.
Proof.
  destruct parsed as [|b|n|s'|l|fs|d]; cbn [messagesArray Js.getProp bindR arrayMap];
    try reflexivity.
  destruct (Js.assoc "messages" fs) as [[|b|n|s'|l|fs'|d]|]; cbn [bindR arrayMap];
    try reflexivity.
  destruct (mapR_rehydrate_cases l) as [[Hin El]|[Hnin (l' & El & Hlen)]];
    rewrite El; cbn [bindR]; [left; auto | right].
  split; [exact Hnin|]. exists l'. auto.
Qed.

End Loading.

(** C7 (as amended).  [loadChatState] never throws: whatever its [try] block
    throws, it returns null.  It returns a snapshot exactly when the key
    holds a non-empty text that [JSON.parse] accepts as an object with a
    [messages] array none of whose elements is null; so it returns null when
    the key is absent, holds the empty string or malformed JSON, or holds a
    value without a [messages] array.  An object that has the array is
    returned as a snapshot even when other fields are missing. *)
Theorem loadChatState_null_or_snapshot `{Platform} (st : Storage) :
  (forall e, loadChatState_try st = Throw e -> loadChatState st = None) /\
  (loadChatState st <> None <->
   exists saved parsed l,
     getItem STORAGE_KEY st = Some saved /\ saved <> EmptyString /\
     JSON_parse saved = Some parsed /\
     messagesArray parsed = Some l /\ ~ In JNull l) /\
  (forall v, loadChatState st = Some v ->
     exists fs l, v = JObj fs /\ Js.assoc "messages" fs = Some (JArr l)).
Proof.
  split; [intros e He; unfold loadChatState; rewrite He; reflexivity|].
  unfold loadChatState, loadChatState_try.
  destruct (getItem STORAGE_KEY st) as [saved|] eqn:Eg; cbn [tryCatch].
  2:{ split; [split; [congruence | intros (? & ? & ? & ? & _); discriminate] | discriminate]. }
  destruct saved as [|c t]; cbn [JsString.truthy tryCatch].
  { split; [split; [congruence | intros (? & ? & ? & [= <-] & Hne & _); congruence] | discriminate]. }
  destruct (JSON_parse (String c t)) as [parsed|] eqn:Ep; cbn [tryCatch].
  2:{ split; [split; [congruence | intros (? & ? & ? & [= <-] & _ & Hp & _); congruence] | discriminate]. }
  pose proof (load_parsed parsed) as Hl.
  destruct (messagesArray parsed) as [l|] eqn:Em.
  - destruct Hl as [[Hin ->]|[Hnin (l' & Hlen & ->)]]; cbn [tryCatch].
    + split; [split; [congruence|] | discriminate].
      intros (? & ? & ? & [= <-] & _ & Hp & Hm & Hn). congruence.
    + split; [split; [intros _; exists (String c t), parsed, l; repeat split; auto; discriminate
                     | discriminate]|].
      intros v [= <-]. destruct parsed as [| | | | |fs|]; try discriminate.
      cbn [assignMessages]. exists (Js.setField "messages" (JArr l') fs), l'.
      split; [reflexivity | apply assoc_setField].
  - rewrite Hl. cbn [tryCatch].
    split; [split; [congruence|] | discriminate].
    intros (? & ? & ? & [= <-] & _ & Hp & Hm & _). congruence.
Qed.

(** C7 as stated fails for "a JSON object with missing fields": an object
    that has [messages] but lacks [sessionId] and [userId] is not a
    [ChatState], yet [loadChatState] returns it rather than null. *)
Lemma load_object_missing_fields :
  Browser.parse messagesOnlyText = Some (JObj [("messages", JArr [])]) /\
  asChatState (JObj [("messages", JArr [])]) = None /\
  @loadChatState browser (storageWith messagesOnlyText) <> None.
Proof.
  split; [vm_compute; reflexivity|].
  split; [reflexivity|].
  vm_compute. discriminate.
Qed.

(** ** Persistence *)

Section Persistence.
Context `{Platform}.

Lemma commit_storage_same prev wd :
  messagesRef prev = messagesRef (widget wd) ->
  sessionId (chat prev) = sessionId (chat (widget wd)) ->
  userId (chat prev) = userId (chat (widget wd)) ->
  localStorage (commit prev wd) = localStorage wd.
Proof.
  intros Er Es Eu. unfold commit, saveDepsChanged. simpl.
  rewrite Er, Es, Eu, Nat.eqb_refl, !String.eqb_refl. reflexivity.
Qed.

Lemma commit_storage_changed prev wd :
  messagesRef (widget wd) = S (messagesRef prev) ->
  localStorage (commit prev wd) = saveEffect (widget wd) (localStorage wd).
Proof.
  intros Er. unfold commit, saveDepsChanged. simpl. rewrite Er.
  replace (messagesRef prev =? S (messagesRef prev))%nat with false
    by (symmetry; apply Nat.eqb_neq; lia).
  reflexivity.
Qed.

Lemma saveEffect_nonempty w st :
  messages (chat w) <> [] -> saveEffect w st = saveChatState (chat w) st.
Proof.
  intros Hne. unfold saveEffect. destruct (messages (chat w)); [congruence|reflexivity].
Qed.

Lemma resume_widget now rnd o w :
  messagesRef (handleSendMessage_resume now rnd o w) = S (messagesRef w) /\
  hasShownGreeting (handleSendMessage_resume now rnd o w) = hasShownGreeting w /\
  isOpen (handleSendMessage_resume now rnd o w) = isOpen w /\
  sessionId (chat (handleSendMessage_resume now rnd o w)) = sessionId (chat w) /\
  userId (chat (handleSendMessage_resume now rnd o w)) = userId (chat w).
Proof.
  destruct o as [r| |]; simpl; auto.
  destruct (result_suggested_actions r) as [[|a l]|]; simpl; auto.
Qed.

Lemma app_singleton_nonempty {A} (l : list A) (x : A) : (l ++ [x])%list <> [].
Proof. destruct l; discriminate. Qed.

(** How one event changes storage: not at all when the log is not written
    to; by one [saveChatState] of the new snapshot when the new log is not
    empty; by removing the snapshot when the log was reset. *)
Lemma step_storage (wd : World) (e : Event) :
  (messagesRef (widget (step wd e)) = messagesRef (widget wd) /\
   log (step wd e) = log wd /\
   localStorage (step wd e) = localStorage wd) \/
  (messagesRef (widget (step wd e)) = S (messagesRef (widget wd)) /\
   log (step wd e) <> [] /\
   localStorage (step wd e) =
     saveChatState (chat (widget (step wd e))) (localStorage wd)) \/
  (messagesRef (widget (step wd e)) = S (messagesRef (widget wd)) /\
   log (step wd e) = [] /\
   localStorage (step wd e) = removeItem STORAGE_KEY (localStorage wd)).
Proof.
  assert (Hsend : forall rnd text,
    (messagesRef (widget (send rnd text wd)) = messagesRef (widget wd) /\
     log (send rnd text wd) = log wd /\
     localStorage (send rnd text wd) = localStorage wd) \/
    (messagesRef (widget (send rnd text wd)) = S (messagesRef (widget wd)) /\
     log (send rnd text wd) <> [] /\
     localStorage (send rnd text wd) =
       saveChatState (chat (widget (send rnd text wd))) (localStorage wd))).
  { intros rnd text. destruct (JsString.trim text) as [|c t] eqn:E.
    - left. unfold send. rewrite (handleSendMessage_blank _ _ _ _ E). auto.
    - right. unfold send, log.
      destruct (handleSendMessage_some (clock wd) rnd text (widget wd))
        as (w' & -> & Hm & _ & _ & _ & _ & _ & _ & _ & _ & Hr); [rewrite E; discriminate|].
      rewrite commit_widget. cbn [widget].
      split; [exact Hr|]. split; [rewrite Hm; apply app_singleton_nonempty|].
      rewrite commit_storage_changed by exact Hr. cbn [widget localStorage].
      apply saveEffect_nonempty. rewrite Hm. apply app_singleton_nonempty. }
  assert (Hsame : forall w', messagesRef w' = messagesRef (widget wd) ->
            chat w' = chat (widget wd) ->
            messagesRef (widget (commit (widget wd) (withWidget w' wd))) = messagesRef (widget wd) /\
            log (commit (widget wd) (withWidget w' wd)) = log wd /\
            localStorage (commit (widget wd) (withWidget w' wd)) = localStorage wd).
  { intros w' Hr Hc. unfold log. rewrite commit_widget. cbn [widget withWidget].
    rewrite Hc. split; [exact Hr|]. split; [reflexivity|].
    rewrite commit_storage_same; cbn [widget withWidget]; try rewrite Hc; auto. }
  unfold step. destruct (mounted wd); cbn [negb]; [|left; auto].
  destruct e as [| |value|rnd|rnd|i rnd| |o rnd|ms rnd|].
  - destruct (isOpen (widget wd)); [left; auto|]. left. apply Hsame; reflexivity.
  - destruct (isOpen (widget wd)); [|left; auto]. left. apply Hsame; reflexivity.
  - destruct (isOpen (widget wd) && negb (isTyping (widget wd))); [|left; auto].
    left. apply Hsame; unfold handleInputChange;
      destruct (String.length value <=? MAX_CHAR_LIMIT)%nat; reflexivity.
  - destruct (isOpen (widget wd) && negb (isTyping (widget wd))); [|left; auto].
    destruct (Hsend rnd (inputValue (widget wd))); auto.
  - destruct (isOpen (widget wd) && negb (sendDisabled (widget wd))); [|left; auto].
    destruct (Hsend rnd (inputValue (widget wd))); auto.
  - destruct (quickRepliesShown (widget wd)); [|left; auto].
    destruct (currentQuickReplies (widget wd) !! i) as [action|]; [|left; auto].
    destruct (Hsend rnd action); auto.
  - destruct (isOpen (widget wd)); [|left; auto].
    right. right. unfold reset, handleReset, log. cbv beta iota.
    rewrite commit_widget. cbn [widget]. split; [reflexivity|]. split; [reflexivity|].
    rewrite commit_storage_empty by reflexivity. reflexivity.
  - unfold resume. destruct (inFlight wd) as [|n]; [left; auto|].
    right. left. unfold log. rewrite commit_widget. cbn [widget].
    destruct (resume_widget (clock wd) rnd o (widget wd)) as (Hr & _).
    split; [exact Hr|]. rewrite resume_messages.
    split; [apply app_singleton_nonempty|].
    rewrite commit_storage_changed by exact Hr. cbn [widget localStorage].
    apply saveEffect_nonempty. rewrite resume_messages. apply app_singleton_nonempty.
  - unfold elapse.
    destruct (match greetingTimer wd with Some d => d <=? clock wd + Z.of_nat ms | None => false end).
    + right. left. unfold log. rewrite commit_widget. cbn [widget].
      split; [reflexivity|]. split; [discriminate|].
      rewrite commit_storage_changed by reflexivity. cbn [widget localStorage].
      apply saveEffect_nonempty. discriminate.
    + left. auto.
  - left. auto.
Qed.

End Persistence.

Lemma loadChatState_absent `{Platform} (st : Storage) :
  getItem STORAGE_KEY st = None -> loadChatState st = None.
Proof. intros E. unfold loadChatState, loadChatState_try. rewrite E. reflexivity. Qed.

Lemma run_snoc `{Platform} (wd : World) (es : list Event) (e : Event) :
  run wd (es ++ [e])%list = step (run wd es) e.
Proof. unfold run. rewrite fold_left_app. reflexivity. Qed.

Section RestoredCells.
Context `{Platform}.

Lemma restore_widget ms w :
  messages (chat (restore ms w)) = ms /\ messagesRef (restore ms w) = S (messagesRef w).
Proof.
  unfold restore. destruct (findLast isAgent ms) as [m|]; [|split; reflexivity].
  destruct (suggested_actions m) as [[|a l]|]; split; reflexivity.
Qed.

End RestoredCells.

(** C3 (as amended).  The save effect writes nothing while the log is empty.
    When the messages array was replaced and the new log is not empty it
    runs one [saveChatState], which stores the printed snapshot if [setItem]
    accepts the write and leaves storage as it was if the write is refused.
    An event that does not write to the log leaves storage alone; after an
    event that does, the snapshot key is absent when the new log is empty,
    and when [setItem] accepts the write (and [JSON.parse] reads back what
    [JSON.stringify] printed) the stored snapshot has as many messages as
    the log. *)
Theorem persistence_invariant `{Platform} (wd : World) (e : Event) :
  (forall prev wd0, log wd0 = [] -> localStorage (commit prev wd0) = localStorage wd0) /\
  (forall prev wd0,
     saveDepsChanged prev (widget wd0) = true -> log wd0 <> [] ->
     localStorage (commit prev wd0)
       = saveChatState (chat (widget wd0)) (localStorage wd0) /\
     (~ accepted STORAGE_KEY (JSON_stringify (chat (widget wd0))) (localStorage wd0) ->
      localStorage (commit prev wd0) = localStorage wd0) /\
     (accepted STORAGE_KEY (JSON_stringify (chat (widget wd0))) (localStorage wd0) ->
      JSON_parse (JSON_stringify (chat (widget wd0))) = Some (encodeState (chat (widget wd0))) ->
      JSON_parse EmptyString = None ->
      getItem STORAGE_KEY (localStorage (commit prev wd0))
        = Some (JSON_stringify (chat (widget wd0))) /\
      persistedCount (localStorage (commit prev wd0)) = length (log wd0))) /\
  (messagesRef (widget (step wd e)) = messagesRef (widget wd) ->
   localStorage (step wd e) = localStorage wd) /\
  (messagesRef (widget (step wd e)) <> messagesRef (widget wd) ->
   (log (step wd e) = [] -> getItem STORAGE_KEY (localStorage (step wd e)) = None) /\
   (log (step wd e) <> [] ->
    localStorage (step wd e) =
      saveChatState (chat (widget (step wd e))) (localStorage wd)) /\
   (accepted STORAGE_KEY (JSON_stringify (chat (widget (step wd e)))) (localStorage wd) ->
    JSON_parse (JSON_stringify (chat (widget (step wd e))))
      = Some (encodeState (chat (widget (step wd e)))) ->
    JSON_parse EmptyString = None ->
    (log (step wd e) <> [] ->
     getItem STORAGE_KEY (localStorage (step wd e))
       = Some (JSON_stringify (chat (widget (step wd e))))) /\
    persistedCount (localStorage (step wd e)) = length (log (step wd e)))).
Proof.
  split; [intros prev wd0 E; apply commit_storage_empty, E|].
  split.
  { intros prev wd0 Hd Hne.
    assert (Hs : localStorage (commit prev wd0)
                 = saveChatState (chat (widget wd0)) (localStorage wd0)).
    { unfold commit. cbn [localStorage widget]. rewrite Hd.
      apply saveEffect_nonempty. exact Hne. }
    split; [exact Hs|]. rewrite Hs. unfold saveChatState. split.
    - intros Hn.
      destruct (setItem STORAGE_KEY (JSON_stringify (chat (widget wd0))) (localStorage wd0))
        as [st'|err] eqn:Es; cbn [tryCatch]; [|reflexivity].
      exfalso. apply Hn. exists st'. exact Es.
    - intros (st' & Hacc) Hp He. rewrite Hacc. cbn [tryCatch].
      pose proof (getItem_setItem _ _ _ _ Hacc) as Hg.
      split; [exact Hg|].
      destruct (loadChatState_stored _ _ Hg Hp He) as (l & El & Hlen & _).
      unfold persistedCount. rewrite El. simpl. exact Hlen. }
  destruct (step_storage wd e) as [(Hr & _ & Hs)|[(Hr & Hl & Hs)|(Hr & Hl & Hs)]].
  - split; [intros _; exact Hs | intros Hne; congruence].
  - split; [intros Heq; rewrite Heq in Hr; lia|]. intros _.
    split; [intros E; congruence|]. split; [intros _; exact Hs|].
    intros (st' & Hacc) Hp He.
    assert (Hg : getItem STORAGE_KEY (localStorage (step wd e))
                 = Some (JSON_stringify (chat (widget (step wd e))))).
    { rewrite Hs. unfold saveChatState. rewrite Hacc. cbn [tryCatch].
      eapply getItem_setItem, Hacc. }
    split; [intros _; exact Hg|].
    destruct (loadChatState_stored _ _ Hg Hp He) as (l & El & Hlen & _).
    unfold persistedCount. rewrite El. simpl. exact Hlen.
  - split; [intros Heq; rewrite Heq in Hr; lia|]. intros _.
    assert (Hg : getItem STORAGE_KEY (localStorage (step wd e)) = None)
      by (rewrite Hs; apply getItem_removeItem).
    split; [intros _; exact Hg|]. split; [intros Hne; congruence|].
    intros _ _ _. split; [intros Hne; congruence|].
    unfold persistedCount. rewrite (loadChatState_absent _ Hg), Hl. reflexivity.
Qed.

Lemma persistence_invariant_witness :
  @persistedCount browser
    (localStorage (@step browser (@run browser demoWorld [Open; InputChange "hi"])
                     (ClickSend "r1")))
  = length (log (@step browser (@run browser demoWorld [Open; InputChange "hi"])
                   (ClickSend "r1"))).
Proof.
  apply (proj2 (proj2 (proj2 (@persistence_invariant browser
           (@run browser demoWorld [Open; InputChange "hi"]) (ClickSend "r1"))))).
  - vm_compute. lia.
  - unfold accepted, setItem. simpl. eexists. reflexivity.
  - vm_compute. reflexivity.
  - vm_compute. reflexivity.
Defined.

(** C3 as stated fails when storage refuses the write: on storage whose
    quota is just enough for the visitor identifier, the first message is
    appended to the log and the refused snapshot write is swallowed by
    [saveChatState], so the log holds one message and no snapshot is
    stored. *)
Lemma refused_write_breaks_count :
  exists wd,
    @reachable browser wd /\
    messagesRef (widget (@step browser wd (ClickSend "r1"))) <> messagesRef (widget wd) /\
    length (log (@step browser wd (ClickSend "r1"))) = 1%nat /\
    getItem STORAGE_KEY (localStorage (@step browser wd (ClickSend "r1"))) = None /\
    @persistedCount browser (localStorage (@step browser wd (ClickSend "r1"))) = 0%nat.
Proof.
  exists (@run browser tightWorld [Open; InputChange "hi"]).
  split.
  { apply reachable_run. apply (@reachable_mount browser tightStorage 1000 "s" "u").
    vm_compute. reflexivity. }
  split; [vm_compute; lia|].
  repeat split; vm_compute; reflexivity.
Qed.

(** ** The visitor identifier *)

Section VisitorId.
Context `{Platform}.

Lemma storage_keys_differ : USER_ID_KEY <> STORAGE_KEY.
Proof. discriminate. Qed.

Lemma getItem_saveChatState_ne k cs st :
  k <> STORAGE_KEY -> getItem k (saveChatState cs st) = getItem k st.
Proof.
  intros Hk. unfold saveChatState.
  destruct (setItem STORAGE_KEY (JSON_stringify cs) st) as [st'|err] eqn:Es; cbn [tryCatch].
  - eapply getItem_setItem_ne; [|exact Es]. congruence.
  - reflexivity.
Qed.

Lemma step_getItem_ne k wd e :
  k <> STORAGE_KEY -> getItem k (localStorage (step wd e)) = getItem k (localStorage wd).
Proof.
  intros Hk.
  destruct (step_storage wd e) as [(_ & _ & ->)|[(_ & _ & ->)|(_ & _ & ->)]].
  - reflexivity.
  - apply getItem_saveChatState_ne, Hk.
  - apply getItem_removeItem_ne. congruence.
Qed.

Lemma generateUserId_stored now rnd st u :
  getItem USER_ID_KEY st = Some u -> u <> EmptyString ->
  generateUserId now rnd st = Ok (u, st).
Proof.
  intros Eg Hu. unfold generateUserId. rewrite Eg.
  apply truthy_true_iff in Hu. rewrite Hu. reflexivity.
Qed.

Lemma generateUserId_result now rnd st u st' :
  generateUserId now rnd st = Ok (u, st') ->
  getItem USER_ID_KEY st' = Some u /\ u <> EmptyString.
Proof.
  unfold generateUserId.
  assert (Hmint : (letR st1 <- setItem USER_ID_KEY ("user-" ++ generateId now rnd) st in
                   Ok ("user-" ++ generateId now rnd, st1)) = Ok (u, st') ->
                  getItem USER_ID_KEY st' = Some u /\ u <> EmptyString).
  { destruct (setItem USER_ID_KEY ("user-" ++ generateId now rnd) st) as [st1|err] eqn:Es;
      cbn [bindR]; [|discriminate].
    intros [= <- <-]. split; [eapply getItem_setItem, Es | discriminate]. }
  destruct (getItem USER_ID_KEY st) as [u0|] eqn:Eg; [|exact Hmint].
  destruct (JsString.truthy u0) eqn:Et; [|exact Hmint].
  intros [= <- <-]. split; [exact Eg | apply truthy_true_iff, Et].
Qed.

End VisitorId.

(** C9.  The identifier [generateUserId] returns is stored under
    'chat_user_id' and is not empty.  Once the key holds an identifier, no
    event of the widget changes or removes it, whatever the events and their
    number; saving a snapshot writes only the snapshot key and reset removes
    only the snapshot key; and the getter returns the stored identifier and
    leaves storage as it is. *)
Theorem visitor_id_frame `{Platform} (wd : World) (u : string) :
  getItem USER_ID_KEY (localStorage wd) = Some u ->
  (forall es, getItem USER_ID_KEY (localStorage (run wd es)) = Some u) /\
  (forall cs, getItem USER_ID_KEY (saveChatState cs (localStorage wd)) = Some u) /\
  (forall k, k <> STORAGE_KEY ->
     getItem k (localStorage (reset wd)) = getItem k (localStorage wd)) /\
  getItem STORAGE_KEY (localStorage (reset wd)) = None /\
  (u <> EmptyString ->
   forall es now rnd,
     generateUserId now rnd (localStorage (run wd es)) = Ok (u, localStorage (run wd es))) /\
  (forall now rnd st u' st',
     generateUserId now rnd st = Ok (u', st') ->
     getItem USER_ID_KEY st' = Some u' /\ u' <> EmptyString).
Proof.
  intros Hu.
  assert (Hrun : forall es, getItem USER_ID_KEY (localStorage (run wd es)) = Some u).
  { intros es. induction es as [|e es IH] using rev_ind; [exact Hu|].
    rewrite run_snoc, step_getItem_ne by apply storage_keys_differ. exact IH. }
  split; [exact Hrun|].
  split; [intros cs; rewrite getItem_saveChatState_ne by apply storage_keys_differ; exact Hu|].
  assert (Hreset : localStorage (reset wd) = removeItem STORAGE_KEY (localStorage wd)).
  { unfold reset, handleReset. cbv beta iota.
    rewrite commit_storage_empty by reflexivity. reflexivity. }
  split; [intros k Hk; rewrite Hreset; apply getItem_removeItem_ne; congruence|].
  split; [rewrite Hreset; apply getItem_removeItem|].
  split; [intros Hne es now rnd; apply generateUserId_stored; [apply Hrun | exact Hne]|].
  intros now rnd st u' st'. apply generateUserId_result.
Qed.

Lemma visitor_id_frame_witness :
  getItem USER_ID_KEY (localStorage demoWorld) = Some "user-1000-u" /\
  forall es, getItem USER_ID_KEY (localStorage (@run browser demoWorld es)) = Some "user-1000-u".
Proof.
  split; [vm_compute; reflexivity|].
  apply (@visitor_id_frame browser demoWorld "user-1000-u").
  vm_compute. reflexivity.
Defined.

(** ** Mounting *)

Section Mounting.
Context `{Platform}.

Lemma commit_same (wd : World) : commit (widget wd) wd = wd.
Proof.
  destruct wd as [w st c t n m]. unfold commit, saveDepsChanged, greetingDepsChanged.
  cbn [widget localStorage clock greetingTimer inFlight mounted].
  rewrite !Nat.eqb_refl, !String.eqb_refl, Bool.eqb_reflx. reflexivity.
Qed.

Lemma generateUserId_frame now rnd st u st1 k :
  generateUserId now rnd st = Ok (u, st1) -> k <> USER_ID_KEY ->
  getItem k st1 = getItem k st.
Proof.
  intros Hg Hk. unfold generateUserId in Hg.
  assert (Hmint : (letR st2 <- setItem USER_ID_KEY ("user-" ++ generateId now rnd) st in
                   Ok ("user-" ++ generateId now rnd, st2)) = Ok (u, st1) ->
                  getItem k st1 = getItem k st).
  { destruct (setItem USER_ID_KEY ("user-" ++ generateId now rnd) st) as [st2|err] eqn:Es;
      cbn [bindR]; [|discriminate].
    intros [= <- <-]. eapply getItem_setItem_ne; [|exact Es]. congruence. }
  destruct (getItem USER_ID_KEY st) as [u0|]; [|exact (Hmint Hg)].
  destruct (JsString.truthy u0); [|exact (Hmint Hg)].
  injection Hg as <- <-. reflexivity.
Qed.

Lemma loadChatState_ext st st1 :
  getItem STORAGE_KEY st1 = getItem STORAGE_KEY st -> loadChatState st1 = loadChatState st.
Proof. intros E. unfold loadChatState, loadChatState_try. rewrite E. reflexivity. Qed.

(** A mount whose effect restores nothing. *)
Lemma mount_unrestored st now rndS rndU uid st1 :
  generateUserId now rndU st = Ok (uid, st1) ->
  mountEffect (initialWidget (generateSessionId now rndS) uid) st1
    = Some (initialWidget (generateSessionId now rndS) uid) ->
  mount st now rndS rndU = Some (freshWorld (generateSessionId now rndS) uid st1 now).
Proof.
  intros Hg Hm. unfold mount. rewrite Hg, Hm. f_equal.
  change (saveEffect (initialWidget (generateSessionId now rndS) uid) st1) with st1.
  change (greetingEffect (initialWidget (generateSessionId now rndS) uid) now)
    with (Some (now + AUTO_GREETING_DELAY)).
  apply (commit_same (freshWorld (generateSessionId now rndS) uid st1 now)).
Qed.

Lemma savedMessages_assign parsed l :
  messagesArray parsed <> None ->
  savedMessages (assignMessages parsed (JArr l)) = l.
Proof.
  destruct parsed as [| | | | |fs|]; cbn [messagesArray]; try congruence.
  intros _. cbn [assignMessages savedMessages]. rewrite assoc_setField. reflexivity.
Qed.

(** The mount effect on a snapshot whose [messages] array is empty. *)
Lemma mountEffect_empty_snapshot w st saved parsed :
  getItem STORAGE_KEY st = Some saved -> saved <> EmptyString ->
  JSON_parse saved = Some parsed -> messagesArray parsed = Some [] ->
  loadChatState st = Some (assignMessages parsed (JArr [])) /\
  mountEffect w st = Some w.
Proof.
  intros Hg Hne Hp Hm.
  assert (Hl : loadChatState st = Some (assignMessages parsed (JArr []))).
  { unfold loadChatState, loadChatState_try. rewrite Hg.
    apply truthy_true_iff in Hne. rewrite Hne, Hp.
    pose proof (load_parsed parsed) as Hl. rewrite Hm in Hl.
    destruct Hl as [[[] _]|[_ (l' & Hlen & ->)]].
    destruct l'; [reflexivity | discriminate]. }
  split; [exact Hl|].
  unfold mountEffect. rewrite Hl, savedMessages_assign by congruence. reflexivity.
Qed.

End Mounting.

(** C10.  When the stored snapshot parses and its [messages] array is empty,
    [loadChatState] returns a snapshot, not null, and the mount leaves every
    cell at its initial value (no messages, greeting-shown flag false, no
    quick replies), leaves the stored snapshot in place and arms the greeting
    timer: the same world as a mount on storage without a snapshot. *)
Theorem empty_snapshot_mounts_fresh `{Platform}
    (st : Storage) (saved : string) (parsed : js) (now : Z) (rndS rndU : string) (wd : World) :
  getItem STORAGE_KEY st = Some saved -> saved <> EmptyString ->
  JSON_parse saved = Some parsed -> messagesArray parsed = Some [] ->
  mount st now rndS rndU = Some wd ->
  loadChatState st <> None /\
  (exists uid st1,
     generateUserId now rndU st = Ok (uid, st1) /\
     wd = freshWorld (generateSessionId now rndS) uid st1 now /\
     getItem STORAGE_KEY (localStorage wd) = Some saved) /\
  log wd = [] /\ hasShownGreeting (widget wd) = false /\
  showQuickReplies (widget wd) = false /\ currentQuickReplies (widget wd) = [] /\
  greetingTimer wd = Some (now + AUTO_GREETING_DELAY) /\
  (forall st0 wd0,
     getItem STORAGE_KEY st0 = None -> mount st0 now rndS rndU = Some wd0 ->
     exists uid0 st2,
       generateUserId now rndU st0 = Ok (uid0, st2) /\
       wd0 = freshWorld (generateSessionId now rndS) uid0 st2 now).
Proof.
  intros Hg Hne Hp Hm Hmount.
  split.
  { destruct (mountEffect_empty_snapshot (widget wd) st saved parsed Hg Hne Hp Hm) as [-> _].
    discriminate. }
  assert (Hfresh : exists uid st1,
             generateUserId now rndU st = Ok (uid, st1) /\
             wd = freshWorld (generateSessionId now rndS) uid st1 now /\
             getItem STORAGE_KEY (localStorage wd) = Some saved).
  { destruct (generateUserId now rndU st) as [[uid st1]|err] eqn:Eu;
      [|unfold mount in Hmount; rewrite Eu in Hmount; discriminate].
    assert (Hg1 : getItem STORAGE_KEY st1 = Some saved).
    { rewrite (generateUserId_frame _ _ _ _ _ STORAGE_KEY Eu); [exact Hg | discriminate]. }
    destruct (mountEffect_empty_snapshot
                (initialWidget (generateSessionId now rndS) uid) st1 saved parsed Hg1 Hne Hp Hm)
      as [_ Hme].
    rewrite (mount_unrestored _ _ _ _ _ _ Eu Hme) in Hmount. injection Hmount as <-.
    exists uid, st1. auto. }
  split; [exact Hfresh|].
  destruct Hfresh as (uid & st1 & _ & -> & _).
  repeat (split; [reflexivity|]).
  intros st0 wd0 Hg0 Hmount0.
  destruct (generateUserId now rndU st0) as [[uid0 st2]|err] eqn:Eu;
    [|unfold mount in Hmount0; rewrite Eu in Hmount0; discriminate].
  assert (Hl : loadChatState st2 = None).
  { apply loadChatState_absent.
    rewrite (generateUserId_frame _ _ _ _ _ STORAGE_KEY Eu); [exact Hg0 | discriminate]. }
  assert (Hme : mountEffect (initialWidget (generateSessionId now rndS) uid0) st2
                = Some (initialWidget (generateSessionId now rndS) uid0))
    by (unfold mountEffect; rewrite Hl; reflexivity).
  rewrite (mount_unrestored _ _ _ _ _ _ Eu Hme) in Hmount0. injection Hmount0 as <-.
  exists uid0, st2. auto.
Qed.

Lemma empty_snapshot_mounts_fresh_witness :
  @loadChatState browser (storageWith emptySnapshotText) <> None /\
  exists wd,
    @mount browser (storageWith emptySnapshotText) 1000 "s" "u" = Some wd /\
    log wd = [] /\ greetingTimer wd = Some (1000 + AUTO_GREETING_DELAY).
Proof.
  assert (Hm : @mount browser (storageWith emptySnapshotText) 1000 "s" "u"
               = Some (freshWorld (generateSessionId 1000 "s") "user-1000-u"
                         {| items := <[USER_ID_KEY := "user-1000-u"]>
                                       (items (storageWith emptySnapshotText));
                            quota := None |} 1000))
    by (vm_compute; reflexivity).
  pose proof (@empty_snapshot_mounts_fresh browser (storageWith emptySnapshotText)
                emptySnapshotText
                (JObj [("messages", JArr []); ("sessionId", JStr "session-1-old");
                       ("userId", JStr "user-1-old")])
                1000 "s" "u" _
                ltac:(vm_compute; reflexivity) ltac:(vm_compute; discriminate)
                ltac:(vm_compute; reflexivity) ltac:(reflexivity) Hm)
    as (Hl & _ & Hlog & _ & _ & _ & Ht & _).
  split; [exact Hl|]. eexists. split; [exact Hm|]. split; [exact Hlog | exact Ht].
Defined.

(** ** The auto-greeting *)

Section Greeting.
Context `{Platform}.

Lemma greetingEffect_none w now :
  hasShownGreeting w = true \/ messages (chat w) <> [] -> greetingEffect w now = None.
Proof.
  unfold greetingEffect. intros [E|E].
  - rewrite E. reflexivity.
  - destruct (messages (chat w)); [congruence|]. rewrite andb_false_r. reflexivity.
Qed.





(** *** After a message was sent *)





(** *** After the widget was torn down *)




End Greeting.

Section GreetingTimer.
Context `{Platform}.

Lemma commit_timerInvariant prev wd :
  (forall d, greetingTimer wd = Some d ->
             hasShownGreeting prev = false /\ messages (chat prev) = []) ->
  timerInvariant (commit prev wd).
Proof.
  intros Hprev d. unfold log. rewrite commit_widget.
  unfold commit. cbn [greetingTimer widget].
  destruct (greetingDepsChanged prev (widget wd)) eqn:Ed.
  - unfold greetingEffect.
    destruct (hasShownGreeting (widget wd)); cbn [negb andb]; [discriminate|].
    destruct (messages (chat (widget wd))); [auto | discriminate].
  - intros Ht. destruct (Hprev d Ht) as [Hs Hl].
    unfold greetingDepsChanged in Ed. apply orb_false_iff in Ed as [E1 E2].
    apply negb_false_iff in E1, E2.
    apply Bool.eqb_prop in E1. apply Nat.eqb_eq in E2.
    rewrite Hl in E2. split; [congruence|].
    destruct (messages (chat (widget wd))); [reflexivity | discriminate].
Qed.

Lemma step_timerInvariant wd e : timerInvariant wd -> timerInvariant (step wd e).
Proof.
  intros Hk.
  assert (Hc : forall w' st' n m,
            timerInvariant (commit (widget wd)
              {| widget := w'; localStorage := st'; clock := clock wd;
                 greetingTimer := greetingTimer wd; inFlight := n;
                 mounted := m |})).
  { intros w' st' n m. apply commit_timerInvariant. exact Hk. }
  assert (Hsend : forall rnd text, timerInvariant (send rnd text wd)).
  { intros rnd text. unfold send.
    destruct (handleSendMessage (clock wd) rnd text (widget wd)); [apply Hc | exact Hk]. }
  unfold step. destruct (mounted wd) eqn:Em; cbn [negb]; [|exact Hk].
  destruct e as [| |value|rnd|rnd|i rnd| |o rnd|ms rnd|].
  - destruct (isOpen (widget wd)); [exact Hk | unfold withWidget; apply Hc].
  - destruct (isOpen (widget wd)); [unfold withWidget; apply Hc | exact Hk].
  - destruct (isOpen (widget wd) && negb (isTyping (widget wd)));
      [unfold withWidget; apply Hc | exact Hk].
  - destruct (isOpen (widget wd) && negb (isTyping (widget wd))); [apply Hsend | exact Hk].
  - destruct (isOpen (widget wd) && negb (sendDisabled (widget wd))); [apply Hsend | exact Hk].
  - destruct (quickRepliesShown (widget wd)); [|exact Hk].
    destruct (currentQuickReplies (widget wd) !! i); [apply Hsend | exact Hk].
  - destruct (isOpen (widget wd)); [|exact Hk].
    unfold reset, handleReset. cbv beta iota. apply Hc.
  - unfold resume. destruct (inFlight wd); [exact Hk | apply Hc].
  - unfold elapse.
    destruct (match greetingTimer wd with Some d => d <=? clock wd + Z.of_nat ms | None => false end).
    + apply commit_timerInvariant. discriminate.
    + exact Hk.
  - unfold unmount. intros d. discriminate.
Qed.

Lemma mount_timerInvariant st now rndS rndU wd :
  mount st now rndS rndU = Some wd -> timerInvariant wd.
Proof.
  unfold mount. destruct (generateUserId now rndU st) as [[uid st1]|]; [|discriminate].
  destruct (mountEffect _ st1) as [w1|]; [|discriminate].
  intros [= <-]. apply commit_timerInvariant. intros d _. split; reflexivity.
Qed.

Lemma reachable_timerInvariant wd : reachable wd -> timerInvariant wd.
Proof.
  induction 1 as [st now rndS rndU wd Hm | wd e _ IH].
  - eapply mount_timerInvariant, Hm.
  - apply step_timerInvariant, IH.
Qed.

(** A mount on storage without a snapshot gives the fresh world. *)
Lemma mount_no_snapshot st now rndS rndU wd :
  getItem STORAGE_KEY st = None -> mount st now rndS rndU = Some wd ->
  exists uid st1, wd = freshWorld (generateSessionId now rndS) uid st1 now.
Proof.
  intros Hg Hm.
  destruct (generateUserId now rndU st) as [[uid st1]|err] eqn:Eu;
    [|unfold mount in Hm; rewrite Eu in Hm; discriminate].
  assert (Hl : loadChatState st1 = None).
  { apply loadChatState_absent.
    rewrite (generateUserId_frame _ _ _ _ _ STORAGE_KEY Eu); [exact Hg | discriminate]. }
  assert (Hme : mountEffect (initialWidget (generateSessionId now rndS) uid) st1
                = Some (initialWidget (generateSessionId now rndS) uid))
    by (unfold mountEffect; rewrite Hl; reflexivity).
  rewrite (mount_unrestored _ _ _ _ _ _ Eu Hme) in Hm. injection Hm as <-.
  exists uid, st1. reflexivity.
Qed.

End GreetingTimer.



(** ** Worked examples on the reference platform *)

Example trim_example : JsString.trim "  hi there  " = "hi there".
Proof. reflexivity. Qed.

Example trim_blank_example : JsString.trim "   " = EmptyString.
Proof. reflexivity. Qed.

Example toISOString_example :
  Browser.toISOString 1700000000000 = "2023-11-14T22:13:20.000Z" /\
  Browser.parseDate "2023-11-14T22:13:20.000Z" = ValidDate 1700000000000.
Proof. split; vm_compute; reflexivity. Qed.

Example parse_malformed_example :
  Browser.parse "{bad" = None /\ Browser.parse EmptyString = None /\
  Browser.parse "null" = Some JNull.
Proof. repeat split; vm_compute; reflexivity. Qed.

(** Malformed text and [null] under the snapshot key both load as null. *)
Example load_malformed_example :
  @loadChatState browser (storageWith "{bad") = None /\
  @loadChatState browser (storageWith "null") = None /\
  @loadChatState browser (storageWith "{}") = None /\
  @loadChatState browser emptyStorage = None.
Proof. repeat split; vm_compute; reflexivity. Qed.

(** A reload: the widget mounts on the storage left by a saved conversation,
    restores the log, marks the greeting as shown, puts up the quick replies
    of the last agent message and arms no timer. *)
Example remount_example :
  match @mount browser (@saveChatState browser demoSnapshot emptyStorage) 1700000005000 "s2" "u2" with
  | Some wd =>
      log wd = messages demoSnapshot /\
      hasShownGreeting (widget wd) = true /\
      showQuickReplies (widget wd) = true /\
      currentQuickReplies (widget wd) = ["Book Now"; "Pricing Info"] /\
      greetingTimer wd = None /\
      bookingCard (widget wd) = true /\
      bookingPromptShown (widget wd) = false /\
      @persistedCount browser (localStorage wd) = 2%nat
  | None => False
  end.
Proof. vm_compute. repeat split. Qed.

(** Sending a message before the delay: the timer is cleared and five
    seconds later the log still holds only the visitor's message. *)
Example send_before_greeting_example :
  log (@run browser demoWorld
         [Elapse 2000 "g1"; Open; InputChange "hello"; ClickSend "r1"; Elapse 4000 "g2"])
  = [userMessage 3000 "r1" "hello"].
Proof. vm_compute. reflexivity. Qed.

(* ------------------------------------------------------------------------- *)
(** * Further properties of the code *)

(** ** Identifiers *)

(** X1.  [generateUserId] is stable: once a call has succeeded, every later
    call, at any time and with any random digits, returns the same
    identifier and leaves storage as it is. *)
Theorem generateUserId_stable (now : Z) (rnd : string) (st : Storage)
    (u : string) (st' : Storage) :
  generateUserId now rnd st = Ok (u, st') ->
  forall now' rnd', generateUserId now' rnd' st' = Ok (u, st').
Proof.
  intros Hg now' rnd'. destruct (generateUserId_result _ _ _ _ _ Hg) as [Hs Hne].
  apply generateUserId_stored; assumption.
Qed.

Lemma generateUserId_stable_witness :
  exists u st',
    generateUserId 1000 "u" emptyStorage = Ok (u, st') /\
    generateUserId 99999 "zzz" st' = Ok (u, st').
Proof.
  exists "user-1000-u", {| items := {[ USER_ID_KEY := "user-1000-u" ]}; quota := None |}.
  assert (Hg : generateUserId 1000 "u" emptyStorage
               = Ok ("user-1000-u",
                     {| items := {[ USER_ID_KEY := "user-1000-u" ]}; quota := None |}))
    by (vm_compute; reflexivity).
  split; [exact Hg|].
  apply (generateUserId_stable 1000 "u" emptyStorage _ _ Hg).
Defined.

(** ** Saving *)

(** X2.  [saveChatState] never throws and writes at most the snapshot key:
    every other key and the quota are left alone; when [setItem] accepts
    the write the key holds the printed snapshot, and when it refuses (the
    quota is exceeded) storage is left exactly as it was. *)
Theorem saveChatState_effect `{Platform} (cs : ChatState) (st : Storage) :
  quota (saveChatState cs st) = quota st /\
  (forall k, k <> STORAGE_KEY -> getItem k (saveChatState cs st) = getItem k st) /\
  (accepted STORAGE_KEY (JSON_stringify cs) st ->
   getItem STORAGE_KEY (saveChatState cs st) = Some (JSON_stringify cs)) /\
  (~ accepted STORAGE_KEY (JSON_stringify cs) st -> saveChatState cs st = st).
Proof.
  split; [|split; [|split]].
  - unfold saveChatState, setItem. destruct (quota st) as [q|] eqn:Eq.
    + destruct (q <? usage _)%nat; cbn [tryCatch]; simpl; congruence.
    + cbn [tryCatch]. simpl. congruence.
  - intros k Hk. apply getItem_saveChatState_ne, Hk.
  - intros (st' & Hs). unfold saveChatState. rewrite Hs. cbn [tryCatch].
    eapply getItem_setItem, Hs.
  - intros Hn. unfold saveChatState.
    destruct (setItem STORAGE_KEY (JSON_stringify cs) st) as [st'|err] eqn:Es;
      cbn [tryCatch]; [|reflexivity].
    exfalso. apply Hn. exists st'. exact Es.
Qed.

Lemma saveChatState_effect_witness :
  ~ @accepted STORAGE_KEY (@JSON_stringify browser demoSnapshot) fullStorage /\
  @saveChatState browser demoSnapshot fullStorage = fullStorage.
Proof.
  assert (Hn : ~ @accepted STORAGE_KEY (@JSON_stringify browser demoSnapshot) fullStorage).
  { intros (st' & Hs). vm_compute in Hs. discriminate. }
  split; [exact Hn|].
  apply (proj2 (proj2 (proj2 (@saveChatState_effect browser demoSnapshot fullStorage)))).
  exact Hn.
Defined.

(** ** Loading and restoring *)

Section Rehydration.
Context `{Platform}.

Lemma assoc_setField_ne (k k' : string) (v : js) (fs : list (string * js)) :
  k <> k' -> Js.assoc k' (Js.setField k v fs) = Js.assoc k' fs.
Proof.
  intros Hk. induction fs as [|[k0 x] fs IH]; cbn [Js.assoc Js.setField].
  - destruct (String.eqb_spec k' k); [congruence | reflexivity].
  - destruct (String.eqb_spec k k0) as [->|Hne]; cbn [Js.assoc].
    + destruct (String.eqb_spec k' k0); [congruence | reflexivity].
    + destruct (String.eqb k' k0); [reflexivity | exact IH].
Qed.

Lemma mapR_Forall2 {A B} (f : A -> result B) (l : list A) (l' : list B) :
  mapR f l = Ok l' -> Forall2 (fun x y => f x = Ok y) l l'.
Proof.
  revert l'. induction l as [|a l IH]; intros l'; cbn [mapR].
  - intros [= <-]. constructor.
  - destruct (f a) as [b|e] eqn:Ea; cbn [bindR]; [|discriminate].
    destruct (mapR f l) as [bs|e] eqn:El; cbn [bindR]; [|discriminate].
    intros [= <-]. constructor; [exact Ea | apply IH; reflexivity].
Qed.

Lemma rehydrate_ok (x y : js) :
  rehydrate x = Ok y ->
  exists ts fy,
    Js.getProp x "timestamp" = Ok ts /\ y = JObj fy /\
    Js.assoc "timestamp" fy = Some (JDate (newDate ts)) /\
    forall k, k <> "timestamp" -> Js.assoc k fy = Js.assoc k (Js.ownProps x).
Proof.
  unfold rehydrate. destruct (Js.getProp x "timestamp") as [ts|e] eqn:Eg; cbn [bindR];
    [|discriminate].
  intros [= <-]. exists ts. eexists. split; [reflexivity|]. split; [reflexivity|].
  split; [apply assoc_setField|].
  intros k Hk. apply assoc_setField_ne. congruence.
Qed.

End Rehydration.

(** X3.  Whatever [loadChatState] returns is the parsed object with its
    [messages] array mapped element by element: every element of the
    returned array is an object whose [timestamp] is a [Date] built from the
    stored timestamp, all its other properties are those of the stored
    element, the array keeps its length, and every other field of the
    snapshot is the parsed one. *)
Theorem loadChatState_rehydrated `{Platform} (st : Storage) (v : js) :
  loadChatState st = Some v ->
  exists saved fs l l',
    getItem STORAGE_KEY st = Some saved /\ JSON_parse saved = Some (JObj fs) /\
    Js.assoc "messages" fs = Some (JArr l) /\
    v = JObj (Js.setField "messages" (JArr l') fs) /\
    savedMessages v = l' /\ length l' = length l /\
    (forall k, k <> "messages" ->
       Js.assoc k (Js.setField "messages" (JArr l') fs) = Js.assoc k fs) /\
    Forall2 (fun x y =>
               exists ts fy,
                 Js.getProp x "timestamp" = Ok ts /\ y = JObj fy /\
                 Js.assoc "timestamp" fy = Some (JDate (newDate ts)) /\
                 forall k, k <> "timestamp" -> Js.assoc k fy = Js.assoc k (Js.ownProps x))
            l l'.
Proof.
  unfold loadChatState, loadChatState_try.
  destruct (getItem STORAGE_KEY st) as [saved|]; cbn [tryCatch]; [|discriminate].
  destruct (JsString.truthy saved); cbn [tryCatch]; [|discriminate].
  destruct (JSON_parse saved) as [parsed|] eqn:Ep; cbn [tryCatch]; [|discriminate].
  destruct parsed as [| | | | |fs|]; cbn [Js.getProp bindR arrayMap tryCatch];
    try discriminate.
  destruct (Js.assoc "messages" fs) as [[| | | |l| |]|] eqn:Em;
    cbn [bindR arrayMap tryCatch]; try discriminate.
  destruct (mapR rehydrate l) as [l'|e] eqn:El; cbn [bindR tryCatch]; [|discriminate].
  intros [= <-]. exists saved, fs, l, l'.
  pose proof (mapR_Forall2 _ _ _ El) as Hf.
  split; [reflexivity|]. split; [exact Ep|]. split; [exact Em|].
  split; [reflexivity|].
  split; [cbn [assignMessages savedMessages]; rewrite assoc_setField; reflexivity|].
  split; [symmetry; eapply Forall2_length, Hf|].
  split; [intros k Hk; apply assoc_setField_ne; congruence|].
  eapply Forall2_impl; [exact Hf|]. intros x y Hxy. apply rehydrate_ok, Hxy.
Qed.

Lemma loadChatState_rehydrated_witness :
  exists saved fs l l',
    getItem STORAGE_KEY (@saveChatState browser demoSnapshot emptyStorage) = Some saved /\
    Browser.parse saved = Some (JObj fs) /\
    Js.assoc "messages" fs = Some (JArr l) /\
    loadedDemo = JObj (Js.setField "messages" (JArr l') fs) /\
    length l' = length l.
Proof.
  destruct (@loadChatState_rehydrated browser
              (@saveChatState browser demoSnapshot emptyStorage) loadedDemo)
    as (saved & fs & l & l' & H1 & H2 & H3 & H4 & _ & H5 & _).
  - vm_compute. reflexivity.
  - exists saved, fs, l, l'. auto.
Defined.

Section Restoring.
Context `{Platform}.

Lemma restore_cells ms w :
  hasShownGreeting (restore ms w) = true /\ isOpen (restore ms w) = isOpen w /\
  inputValue (restore ms w) = inputValue w /\ isTyping (restore ms w) = isTyping w /\
  sessionId (chat (restore ms w)) = sessionId (chat w) /\
  userId (chat (restore ms w)) = userId (chat w).
Proof.
  unfold restore. destruct (findLast isAgent ms) as [m|]; [|repeat split].
  destruct (suggested_actions m) as [[|a l]|]; repeat split.
Qed.

Lemma restore_quickReplies ms sid uid :
  currentQuickReplies (restore ms (initialWidget sid uid)) = restoredQuickReplies ms /\
  showQuickReplies (restore ms (initialWidget sid uid))
    = (0 <? length (restoredQuickReplies ms))%nat.
Proof.
  unfold restore, restoredQuickReplies.
  destruct (findLast isAgent ms) as [m|]; [|split; reflexivity].
  destruct (suggested_actions m) as [[|a l]|]; split; reflexivity.
Qed.

End Restoring.

(** X4.  A reload restores the conversation.  When storage holds the
    snapshot printed for [cs], whose log is not empty, the mount puts the log
    of [cs] back, marks the greeting as shown and leaves no greeting timer
    armed; the quick replies are those of the last agent message of the log,
    shown when there are any; the widget starts collapsed and idle.  The
    session identifier is the freshly generated one, not the stored one.
    Assumed of the platform as for the round trip: [JSON.parse] reads back
    the printed text and every timestamp survives its ISO string. *)
Theorem mount_restores `{Platform} (cs : ChatState) (st : Storage) (now : Z)
    (rndS rndU : string) (wd : World) :
  getItem STORAGE_KEY st = Some (JSON_stringify cs) ->
  JSON_parse (JSON_stringify cs) = Some (encodeState cs) ->
  JSON_parse EmptyString = None ->
  Forall timestampSurvives (messages cs) ->
  messages cs <> [] ->
  mount st now rndS rndU = Some wd ->
  log wd = messages cs /\
  hasShownGreeting (widget wd) = true /\ greetingTimer wd = None /\
  currentQuickReplies (widget wd) = restoredQuickReplies (messages cs) /\
  showQuickReplies (widget wd) = (0 <? length (restoredQuickReplies (messages cs)))%nat /\
  isOpen (widget wd) = false /\ isTyping (widget wd) = false /\
  inputValue (widget wd) = EmptyString /\ inFlight wd = 0%nat /\
  sessionId (chat (widget wd)) = generateSessionId now rndS /\
  localStorage wd
    = saveChatState (chat (widget wd))
        (match generateUserId now rndU st with Ok (_, st1) => st1 | Throw _ => st end).
Proof.
  intros Hg Hp He Hts Hne. unfold mount.
  destruct (generateUserId now rndU st) as [[uid st1]|err] eqn:Eu; [|discriminate].
  assert (Hg1 : getItem STORAGE_KEY st1 = Some (JSON_stringify cs)).
  { rewrite (generateUserId_frame _ _ _ _ _ STORAGE_KEY Eu); [exact Hg | discriminate]. }
  destruct (loadChatState_stored cs st1 Hg1 Hp He) as (l & El & Hlen & Hl).
  assert (Hme : mountEffect (initialWidget (generateSessionId now rndS) uid) st1
                = Some (restore (messages cs) (initialWidget (generateSessionId now rndS) uid))).
  { unfold mountEffect. rewrite El. cbn [savedMessages].
    change (Js.assoc "messages"
              [("messages", JArr l); ("sessionId", JStr (sessionId cs));
               ("userId", JStr (userId cs))]) with (Some (JArr l)).
    cbv beta iota. rewrite (Hl Hts).
    destruct l as [|x l]; [destruct (messages cs); [congruence | discriminate]|].
    reflexivity. }
  rewrite Hme. intros [= <-].
  set (w0 := initialWidget (generateSessionId now rndS) uid).
  destruct (restore_widget (messages cs) w0) as [Hm Hr].
  destruct (restore_cells (messages cs) w0) as (Hs & Ho & Hi & Hty & Hsid & Huid).
  destruct (restore_quickReplies (messages cs) (generateSessionId now rndS) uid) as [Hq Hsh].
  unfold log. rewrite commit_widget. cbn [widget inFlight].
  split; [exact Hm|]. split; [exact Hs|].
  split.
  { unfold commit, greetingDepsChanged. cbn [greetingTimer widget clock].
    rewrite Hs. change (hasShownGreeting w0) with false. cbn [Bool.eqb negb orb].
    apply greetingEffect_none. left. exact Hs. }
  split; [exact Hq|]. split; [exact Hsh|]. split; [exact Ho|]. split; [exact Hty|].
  split; [exact Hi|]. split; [reflexivity|]. split; [exact Hsid|].
  rewrite commit_storage_changed by exact Hr. cbn [widget localStorage].
  change (saveEffect w0 st1) with st1.
  apply saveEffect_nonempty. rewrite Hm. exact Hne.
Qed.

Lemma mount_restores_witness :
  exists wd,
    @mount browser (@saveChatState browser demoSnapshot emptyStorage)
      1700000005000 "s2" "u2" = Some wd /\
    log wd = messages demoSnapshot /\
    hasShownGreeting (widget wd) = true /\ greetingTimer wd = None /\
    currentQuickReplies (widget wd) = restoredQuickReplies (messages demoSnapshot).
Proof.
  exists remountedDemo.
  assert (Hm : @mount browser (@saveChatState browser demoSnapshot emptyStorage)
                 1700000005000 "s2" "u2" = Some remountedDemo)
    by (vm_compute; reflexivity).
  split; [exact Hm|].
  assert (Hg : getItem STORAGE_KEY (@saveChatState browser demoSnapshot emptyStorage)
               = Some (@JSON_stringify browser demoSnapshot))
    by (vm_compute; reflexivity).
  assert (Hp : Browser.parse (@JSON_stringify browser demoSnapshot)
               = Some (@encodeState browser demoSnapshot))
    by (vm_compute; reflexivity).
  assert (He : Browser.parse EmptyString = None) by (vm_compute; reflexivity).
  assert (Hts : Forall (@timestampSurvives browser) (messages demoSnapshot))
    by (repeat constructor; eexists; (split; [reflexivity | vm_compute; reflexivity])).
  assert (Hne : messages demoSnapshot <> []) by discriminate.
  destruct (@mount_restores browser demoSnapshot
              (@saveChatState browser demoSnapshot emptyStorage)
              1700000005000 "s2" "u2" remountedDemo Hg Hp He Hts Hne Hm)
    as (H1 & H2 & H3 & H4 & _).
  repeat split; assumption.
Defined.

(** ** One request at a time *)

Section EventCases.
Context `{Platform}.

(** The shapes an event can take: nothing; a change of the cells that leaves
    the conversation alone; a send, possible only while no reply is awaited;
    a reset; a reply; the passing of time; the teardown. *)
Lemma step_cases (wd : World) (e : Event) :
  step wd e = wd \/
  (exists w',
     step wd e = commit (widget wd) (withWidget w' wd) /\
     chat w' = chat (widget wd) /\ messagesRef w' = messagesRef (widget wd) /\
     isTyping w' = isTyping (widget wd) /\
     hasShownGreeting w' = hasShownGreeting (widget wd)) \/
  (exists rnd text,
     isTyping (widget wd) = false /\ isInputEvent e = true /\
     step wd e = send rnd text wd) \/
  (e = ClickReset /\ step wd e = reset wd) \/
  (exists o rnd, e = AgentReply o rnd /\ step wd e = resume o rnd wd) \/
  (exists ms rnd, e = Elapse ms rnd /\ step wd e = elapse ms rnd wd) \/
  (e = Unmount /\ step wd e = unmount wd).
Proof.
  unfold step. destruct (mounted wd); cbn [negb]; [|left; reflexivity].
  destruct e as [| |value|rnd|rnd|i rnd| |o rnd|ms rnd|].
  - destruct (isOpen (widget wd)); [left; reflexivity|].
    right. left. exists (setIsOpen true (widget wd)). repeat split.
  - destruct (isOpen (widget wd)); [|left; reflexivity].
    right. left. exists (setIsOpen false (widget wd)). repeat split.
  - destruct (isOpen (widget wd) && negb (isTyping (widget wd))); [|left; reflexivity].
    right. left. exists (handleInputChange value (widget wd)).
    unfold handleInputChange.
    destruct (String.length value <=? MAX_CHAR_LIMIT)%nat; repeat split.
  - destruct (isOpen (widget wd) && negb (isTyping (widget wd))) eqn:Eg; [|left; reflexivity].
    apply andb_true_iff in Eg as [_ Et]. apply negb_true_iff in Et.
    right. right. left. exists rnd, (inputValue (widget wd)). auto.
  - destruct (isOpen (widget wd) && negb (sendDisabled (widget wd))) eqn:Eg;
      [|left; reflexivity].
    apply andb_true_iff in Eg as [_ Et]. apply negb_true_iff in Et.
    unfold sendDisabled in Et. apply orb_false_iff in Et as [_ Et].
    right. right. left. exists rnd, (inputValue (widget wd)). auto.
  - destruct (quickRepliesShown (widget wd)) eqn:Eg; [|left; reflexivity].
    destruct (currentQuickReplies (widget wd) !! i) as [action|]; [|left; reflexivity].
    unfold quickRepliesShown in Eg. apply andb_true_iff in Eg as [_ Et].
    apply negb_true_iff in Et.
    right. right. left. exists rnd, action. auto.
  - destruct (isOpen (widget wd)); [|left; reflexivity].
    right. right. right. left. auto.
  - right. right. right. right. left. eauto.
  - right. right. right. right. right. left. eauto.
  - right. right. right. right. right. right. auto.
Qed.

Lemma resume_isTyping now rnd o w : isTyping (handleSendMessage_resume now rnd o w) = false.
Proof.
  destruct o as [r| |]; simpl; try reflexivity.
  destruct (result_suggested_actions r) as [[|a l]|]; reflexivity.
Qed.

Lemma send_awaiting rnd text wd :
  send rnd text wd = wd \/
  (isTyping (widget (send rnd text wd)) = true /\
   inFlight (send rnd text wd) = S (inFlight wd)).
Proof.
  destruct (JsString.trim text) as [|c t] eqn:E.
  - left. unfold send. rewrite (handleSendMessage_blank _ _ _ _ E). reflexivity.
  - right. unfold send.
    destruct (handleSendMessage_some (clock wd) rnd text (widget wd))
      as (w' & -> & _ & _ & Ht & _); [rewrite E; discriminate|].
    rewrite commit_widget. cbn [widget inFlight commit]. auto.
Qed.

Lemma step_awaitingConsistent wd e :
  awaitingConsistent wd -> awaitingConsistent (step wd e).
Proof.
  intros Ha.
  destruct (step_cases wd e)
    as [->|[(w' & -> & _ & _ & Ht & _)|[(rnd & text & Ht & _ & ->)
       |[(_ & ->)|[(o & rnd & _ & ->)|[(ms & rnd & _ & ->)|(_ & ->)]]]]]].
  - exact Ha.
  - unfold awaitingConsistent in *. rewrite commit_widget.
    cbn [widget withWidget inFlight commit]. rewrite Ht. exact Ha.
  - destruct (send_awaiting rnd text wd) as [->|[Ht' Hn]]; [exact Ha|].
    left. split; [exact Ht'|]. rewrite Hn.
    destruct Ha as [[Hx _]|[_ ->]]; [congruence | reflexivity].
  - unfold awaitingConsistent, reset, handleReset in *. cbv beta iota.
    rewrite commit_widget. cbn [widget inFlight commit]. exact Ha.
  - unfold resume. destruct (inFlight wd) as [|n] eqn:En; [exact Ha|].
    right. rewrite commit_widget. cbn [widget inFlight commit].
    split; [apply resume_isTyping|].
    destruct Ha as [[_ Hn]|[_ Hn]]; congruence.
  - unfold elapse.
    destruct (match greetingTimer wd with Some d => d <=? clock wd + Z.of_nat ms | None => false end);
      exact Ha.
  - exact Ha.
Qed.

Lemma mount_awaitingConsistent st now rndS rndU wd :
  mount st now rndS rndU = Some wd -> awaitingConsistent wd.
Proof.
  unfold mount. destruct (generateUserId now rndU st) as [[uid st1]|]; [|discriminate].
  destruct (mountEffect _ st1) as [w1|] eqn:Em; [|discriminate].
  intros [= <-]. right. rewrite commit_widget. cbn [widget inFlight commit].
  split; [|reflexivity].
  destruct (mountEffect_cases _ _ _ Em) as [->|(ms & _ & ->)]; [reflexivity|].
  destruct (restore_cells ms (initialWidget (generateSessionId now rndS) uid))
    as (_ & _ & _ & -> & _). reflexivity.
Qed.

End EventCases.

(** X5.  At most one agent call is in flight, and the typing flag is set
    exactly while one is: in every reachable state either the flag is set
    and one call is pending, or it is clear and none is.  While the flag is
    set, typing, Enter, the send button and the quick-reply buttons leave
    the state unchanged. *)
Theorem one_request_at_a_time `{Platform} (wd : World) :
  reachable wd ->
  awaitingConsistent wd /\ (inFlight wd <= 1)%nat /\
  (isTyping (widget wd) = true ->
   forall e, isInputEvent e = true -> step wd e = wd).
Proof.
  intros Hr.
  assert (Ha : awaitingConsistent wd).
  { induction Hr as [st now rndS rndU wd Hm | wd e _ IH].
    - eapply mount_awaitingConsistent, Hm.
    - apply step_awaitingConsistent, IH. }
  split; [exact Ha|]. split; [destruct Ha as [[_ ->]|[_ ->]]; lia|].
  intros Ht e He. unfold step. destruct (mounted wd); cbn [negb]; [|reflexivity].
  destruct e as [| |value|rnd|rnd|i rnd| |o rnd|ms rnd|]; try discriminate.
  - rewrite Ht, andb_false_r. reflexivity.
  - rewrite Ht, andb_false_r. reflexivity.
  - unfold sendDisabled. rewrite Ht, orb_true_r, andb_false_r. reflexivity.
  - unfold quickRepliesShown. rewrite Ht, andb_false_r. reflexivity.
Qed.

Lemma one_request_at_a_time_witness :
  isTyping (widget (@run browser demoWorld [Open; InputChange "hi"; ClickSend "r1"])) = true /\
  inFlight (@run browser demoWorld [Open; InputChange "hi"; ClickSend "r1"]) = 1%nat /\
  @step browser (@run browser demoWorld [Open; InputChange "hi"; ClickSend "r1"])
    (ClickSend "r2")
  = @run browser demoWorld [Open; InputChange "hi"; ClickSend "r1"].
Proof.
  destruct (@one_request_at_a_time browser
              (@run browser demoWorld [Open; InputChange "hi"; ClickSend "r1"])
              (reachable_run _ _ demoWorld_reachable)) as (_ & _ & Hs).
  split; [vm_compute; reflexivity|]. split; [vm_compute; reflexivity|].
  apply Hs; [vm_compute; reflexivity | reflexivity].
Defined.

(** ** The log only grows *)

Section AppendOnly.
Context `{Platform}.

Lemma step_appends wd e :
  timerInvariant wd -> isReset e = false ->
  exists suffix, log (step wd e) = (log wd ++ suffix)%list /\ (length suffix <= 1)%nat.
Proof.
  intros Hk He.
  assert (Hsame : forall wd', log wd' = log wd ->
            exists suffix, log wd' = (log wd ++ suffix)%list /\ (length suffix <= 1)%nat).
  { intros wd' E. exists []. rewrite app_nil_r. split; [exact E | simpl; lia]. }
  destruct (step_cases wd e)
    as [->|[(w' & -> & Hc & _)|[(rnd & text & _ & _ & ->)
       |[(-> & _)|[(o & rnd & _ & ->)|[(ms & rnd & _ & ->)|(_ & ->)]]]]]].
  - apply Hsame. reflexivity.
  - apply Hsame. unfold log. rewrite commit_widget. cbn [widget withWidget].
    rewrite Hc. reflexivity.
  - destruct (send_log rnd text wd) as [[_ ->]|(_ & -> & _)]; [apply Hsame; reflexivity|].
    eexists. split; [reflexivity | simpl; lia].
  - discriminate.
  - unfold resume. destruct (inFlight wd); [apply Hsame; reflexivity|].
    unfold log. rewrite commit_widget. cbn [widget]. rewrite resume_messages.
    eexists. split; [reflexivity | simpl; lia].
  - unfold elapse. destruct (greetingTimer wd) as [d|] eqn:Et; [|apply Hsame; reflexivity].
    destruct (d <=? clock wd + Z.of_nat ms); [|apply Hsame; reflexivity].
    destruct (Hk d Et) as [_ Hl].
    exists [greetingMessage (clock wd + Z.of_nat ms) rnd].
    rewrite Hl. split; [reflexivity | simpl; lia].
  - apply Hsame. reflexivity.
Qed.

End AppendOnly.

(** X6.  Between resets the log is append-only: from a reachable state, any
    sequence of events without a reset leaves the earlier messages in
    place, unchanged and in order, and adds at most one message per event
    after them. *)
Theorem log_append_only `{Platform} (wd : World) (es : list Event) :
  reachable wd ->
  (forall e, In e es -> isReset e = false) ->
  exists suffix,
    log (run wd es) = (log wd ++ suffix)%list /\ (length suffix <= length es)%nat.
Proof.
  revert wd. induction es as [|e es IH]; intros wd Hr Hes.
  - exists []. rewrite app_nil_r. split; [reflexivity | simpl; lia].
  - destruct (step_appends wd e (reachable_timerInvariant wd Hr))
      as (s1 & E1 & L1); [apply Hes; left; reflexivity|].
    destruct (IH (step wd e) (reachable_step _ _ Hr)) as (s2 & E2 & L2);
      [intros e' Hin; apply Hes; right; exact Hin|].
    exists (s1 ++ s2)%list. cbn [run fold_left] in *. fold (run (step wd e) es).
    rewrite E2, E1, <- app_assoc. split; [reflexivity|].
    rewrite length_app. simpl. lia.
Qed.

Lemma log_append_only_witness :
  exists suffix,
    log (@run browser demoWorld longLabelScenario) = (log demoWorld ++ suffix)%list /\
    (length suffix <= length longLabelScenario)%nat.
Proof.
  apply (@log_append_only browser demoWorld longLabelScenario).
  - exact demoWorld_reachable.
  - intros e Hin. unfold longLabelScenario in Hin. simpl in Hin.
    destruct Hin as [<-|[<-|[<-|[<-|[<-|[]]]]]]; reflexivity.
Defined.

(** ** Identifiers of a mounted widget *)

Section Identity.
Context `{Platform}.

Lemma send_ids rnd text wd :
  sessionId (chat (widget (send rnd text wd))) = sessionId (chat (widget wd)) /\
  userId (chat (widget (send rnd text wd))) = userId (chat (widget wd)).
Proof.
  unfold send. destruct (handleSendMessage (clock wd) rnd text (widget wd)) as [w'|] eqn:Eh;
    [|split; reflexivity].
  rewrite commit_widget. cbn [widget].
  unfold handleSendMessage in Eh.
  destruct (negb (JsString.truthy (JsString.trim text))); [discriminate|].
  injection Eh as <-. split; reflexivity.
Qed.

Lemma step_ids wd e :
  sessionId (chat (widget (step wd e))) = sessionId (chat (widget wd)) /\
  userId (chat (widget (step wd e))) = userId (chat (widget wd)).
Proof.
  destruct (step_cases wd e)
    as [->|[(w' & -> & Hc & _)|[(rnd & text & _ & _ & ->)
       |[(_ & ->)|[(o & rnd & _ & ->)|[(ms & rnd & _ & ->)|(_ & ->)]]]]]].
  - split; reflexivity.
  - rewrite commit_widget. cbn [widget withWidget]. rewrite Hc. split; reflexivity.
  - apply send_ids.
  - unfold reset, handleReset. cbv beta iota. rewrite commit_widget. split; reflexivity.
  - unfold resume. destruct (inFlight wd); [split; reflexivity|].
    rewrite commit_widget. cbn [widget].
    destruct (resume_widget (clock wd) rnd o (widget wd)) as (_ & _ & _ & -> & ->).
    split; reflexivity.
  - unfold elapse.
    destruct (match greetingTimer wd with Some d => d <=? clock wd + Z.of_nat ms | None => false end);
      split; reflexivity.
  - split; reflexivity.
Qed.

Lemma run_ids es wd :
  sessionId (chat (widget (run wd es))) = sessionId (chat (widget wd)) /\
  userId (chat (widget (run wd es))) = userId (chat (widget wd)).
Proof.
  revert wd. induction es as [|e es IH]; intros wd; [split; reflexivity|].
  cbn [run fold_left]. fold (run (step wd e) es).
  destruct (IH (step wd e)) as [-> ->]. apply step_ids.
Qed.

Lemma mount_visitorIdStored st now rndS rndU wd :
  mount st now rndS rndU = Some wd ->
  visitorIdStored wd /\ sessionId (chat (widget wd)) = generateSessionId now rndS.
Proof.
  unfold mount. destruct (generateUserId now rndU st) as [[uid st1]|] eqn:Eu; [|discriminate].
  destruct (mountEffect _ st1) as [w1|] eqn:Em; [|discriminate].
  intros [= <-]. destruct (generateUserId_result _ _ _ _ _ Eu) as [Hs Hne].
  set (w0 := initialWidget (generateSessionId now rndS) uid) in *.
  assert (Hid : sessionId (chat w1) = generateSessionId now rndS /\ userId (chat w1) = uid).
  { destruct (mountEffect_cases _ _ _ Em) as [->|(ms & _ & ->)]; [split; reflexivity|].
    destruct (restore_cells ms w0) as (_ & _ & _ & _ & -> & ->). split; reflexivity. }
  destruct Hid as [Hsid Huid].
  unfold visitorIdStored. rewrite commit_widget. cbn [widget].
  rewrite Huid. split; [split; [|exact Hne] | exact Hsid].
  unfold commit. cbn [localStorage widget].
  change (saveEffect w0 st1) with st1.
  destruct (saveDepsChanged w0 w1); [|exact Hs].
  unfold saveEffect. destruct (0 <? length (messages (chat w1)))%nat; [|exact Hs].
  rewrite getItem_saveChatState_ne by apply storage_keys_differ. exact Hs.
Qed.

End Identity.

(** X7.  The identifiers of a mounted widget never change: in every
    reachable state the visitor identifier held by the widget is the
    non-empty string stored under 'chat_user_id', and no sequence of events
    changes the widget's session identifier or visitor identifier. *)
Theorem identifiers_fixed `{Platform} (wd : World) :
  reachable wd ->
  visitorIdStored wd /\
  forall es,
    sessionId (chat (widget (run wd es))) = sessionId (chat (widget wd)) /\
    userId (chat (widget (run wd es))) = userId (chat (widget wd)).
Proof.
  intros Hr. split; [|intros es; apply run_ids].
  induction Hr as [st now rndS rndU wd Hm | wd e _ IH].
  - eapply mount_visitorIdStored, Hm.
  - destruct IH as [Hs Hne]. destruct (step_ids wd e) as [_ Hu].
    unfold visitorIdStored. rewrite Hu.
    split; [|exact Hne]. rewrite step_getItem_ne by apply storage_keys_differ. exact Hs.
Qed.

Lemma identifiers_fixed_witness :
  @visitorIdStored (@run browser demoWorld longLabelScenario) /\
  userId (chat (widget (@run browser demoWorld longLabelScenario))) = "user-1000-u".
Proof.
  split.
  - apply (@identifiers_fixed browser (@run browser demoWorld longLabelScenario)).
    apply reachable_run, demoWorld_reachable.
  - vm_compute. reflexivity.
Defined.

(** ** The latest qualification across an exchange *)



Section QualificationEvents.
Context `{Platform}.




End QualificationEvents.



(** ** Quick replies after an exchange *)



(** ** Reset *)

Section ResetEdges.
Context `{Platform}.

Lemma reset_world wd :
  reset wd =
    {| widget := setHasShownGreeting false (setMessages (fun _ => []) (widget wd));
       localStorage := removeItem STORAGE_KEY (localStorage wd);
       clock := clock wd;
       greetingTimer :=
         if greetingDepsChanged (widget wd)
              (setHasShownGreeting false (setMessages (fun _ => []) (widget wd)))
         then Some (clock wd + AUTO_GREETING_DELAY) else greetingTimer wd;
       inFlight := inFlight wd; mounted := mounted wd |}.
Proof.
  unfold reset, handleReset. cbv beta iota. unfold commit.
  cbn [widget localStorage clock greetingTimer inFlight mounted].
  f_equal. unfold saveDepsChanged. cbn [messagesRef setHasShownGreeting setMessages].
  destruct (negb (messagesRef (widget wd) =? S (messagesRef (widget wd)))%nat || _ || _);
    reflexivity.
Qed.

End ResetEdges.

Section ReplyAfterReset.
Context `{Platform}.

Lemma commit_timer_nonempty prev wd :
  length (messages (chat prev)) <> length (messages (chat (widget wd))) ->
  messages (chat (widget wd)) <> [] ->
  greetingTimer (commit prev wd) = None.
Proof.
  intros Hlen Hne. unfold commit, greetingDepsChanged. cbn [greetingTimer widget].
  replace (length (messages (chat prev)) =? length (messages (chat (widget wd))))%nat
    with false by (symmetry; apply Nat.eqb_neq; exact Hlen).
  cbn [negb]. rewrite orb_true_r. apply greetingEffect_none. right. exact Hne.
Qed.

End ReplyAfterReset.

(** X10.  A reset does not cancel a pending agent call: it leaves the call
    in flight and the typing flag as they were, with the log empty, the
    greeting-shown flag cleared and the snapshot removed.  If the reply then
    arrives while the log is still empty and the flag still cleared, that
    is, before a re-armed greeting has fired, it becomes the only message of
    the log and is saved as a new snapshot; the flag stays cleared, the
    greeting timer is cancelled and the passing of time adds nothing. *)
Theorem reply_into_cleared_log `{Platform} (wd : World) (o : Outcome) (rnd : string) :
  mounted wd = true -> inFlight wd <> 0%nat ->
  log wd = [] -> hasShownGreeting (widget wd) = false ->
  (log (step wd (AgentReply o rnd)) = [replyMessage (clock wd) rnd o] /\
   hasShownGreeting (widget (step wd (AgentReply o rnd))) = false /\
   greetingTimer (step wd (AgentReply o rnd)) = None /\
   localStorage (step wd (AgentReply o rnd))
     = saveChatState (chat (widget (step wd (AgentReply o rnd)))) (localStorage wd) /\
   forall ms r,
     log (step (step wd (AgentReply o rnd)) (Elapse ms r))
       = [replyMessage (clock wd) rnd o]) /\
  (forall wd0,
     mounted wd0 = true -> isOpen (widget wd0) = true ->
     mounted (step wd0 ClickReset) = true /\
     inFlight (step wd0 ClickReset) = inFlight wd0 /\
     isTyping (widget (step wd0 ClickReset)) = isTyping (widget wd0) /\
     log (step wd0 ClickReset) = [] /\
     hasShownGreeting (widget (step wd0 ClickReset)) = false /\
     localStorage (step wd0 ClickReset) = removeItem STORAGE_KEY (localStorage wd0)).
Proof.
  intros Hm Hn Hl Hs. split.
  - assert (E : step wd (AgentReply o rnd) = resume o rnd wd)
      by (unfold step; rewrite Hm; reflexivity).
    rewrite E. unfold resume. destruct (inFlight wd) as [|n]; [congruence|].
    destruct (resume_widget (clock wd) rnd o (widget wd)) as (Hr & Hg & _).
    assert (Hlog : messages (chat (handleSendMessage_resume (clock wd) rnd o (widget wd)))
                   = [replyMessage (clock wd) rnd o])
      by (rewrite resume_messages; unfold log in Hl; rewrite Hl; reflexivity).
    assert (Ht : greetingTimer
                   (commit (widget wd)
                      {| widget := handleSendMessage_resume (clock wd) rnd o (widget wd);
                         localStorage := localStorage wd; clock := clock wd;
                         greetingTimer := greetingTimer wd; inFlight := n;
                         mounted := mounted wd |}) = None).
    { apply commit_timer_nonempty; cbn [widget]; rewrite Hlog.
      - unfold log in Hl. rewrite Hl. discriminate.
      - discriminate. }
    assert (Hst : localStorage
                    (commit (widget wd)
                       {| widget := handleSendMessage_resume (clock wd) rnd o (widget wd);
                          localStorage := localStorage wd; clock := clock wd;
                          greetingTimer := greetingTimer wd; inFlight := n;
                          mounted := mounted wd |})
                  = saveChatState (chat (handleSendMessage_resume (clock wd) rnd o (widget wd)))
                      (localStorage wd)).
    { rewrite commit_storage_changed by exact Hr. cbn [widget localStorage].
      apply saveEffect_nonempty. rewrite Hlog. discriminate. }
    set (wd2 := commit (widget wd) _) in *.
    assert (Hw2 : widget wd2 = handleSendMessage_resume (clock wd) rnd o (widget wd))
      by reflexivity.
    assert (Hm2 : mounted wd2 = true) by exact Hm.
    unfold log. rewrite Hw2.
    split; [exact Hlog|]. split; [rewrite Hg; exact Hs|]. split; [exact Ht|].
    split; [exact Hst|].
    intros ms r. unfold step. rewrite Hm2. cbn [negb]. unfold elapse. rewrite Ht.
    cbn [widget]. rewrite Hw2. exact Hlog.
  - intros wd0 Hm0 Ho0.
    assert (E : step wd0 ClickReset = reset wd0)
      by (unfold step; rewrite Hm0, Ho0; reflexivity).
    rewrite E, reset_world. cbn [mounted inFlight widget localStorage].
    unfold log. cbn [widget]. repeat split. exact Hm0.
Qed.

Lemma reply_into_cleared_log_witness :
  log (@step browser
         (@step browser (@run browser demoWorld [Open; InputChange "hi"; ClickSend "r1"])
            ClickReset)
         (AgentReply Rejected "r2"))
  = [replyMessage
       (clock (@step browser
                 (@run browser demoWorld [Open; InputChange "hi"; ClickSend "r1"])
                 ClickReset))
       "r2" Rejected].
Proof.
  assert (H1 : mounted (@step browser
                          (@run browser demoWorld [Open; InputChange "hi"; ClickSend "r1"])
                          ClickReset) = true) by (vm_compute; reflexivity).
  assert (H2 : inFlight (@step browser
                           (@run browser demoWorld [Open; InputChange "hi"; ClickSend "r1"])
                           ClickReset) <> 0%nat) by (vm_compute; discriminate).
  assert (H3 : log (@step browser
                      (@run browser demoWorld [Open; InputChange "hi"; ClickSend "r1"])
                      ClickReset) = []) by (vm_compute; reflexivity).
  assert (H4 : hasShownGreeting
                 (widget (@step browser
                            (@run browser demoWorld [Open; InputChange "hi"; ClickSend "r1"])
                            ClickReset)) = false) by (vm_compute; reflexivity).
  exact (proj1 (proj1 (@reply_into_cleared_log browser _ Rejected "r2" H1 H2 H3 H4))).
Defined.

(** X11.  Reset re-arms the greeting: after a reset of a conversation that
    had messages or had shown the greeting, the timer is due 5000 ms after
    the reset, and the first passing of time that reaches it puts the
    greeting, and nothing else, into the log. *)
Theorem reset_rearms_greeting `{Platform} (wd : World) (ms : nat) (rnd : string) :
  mounted wd = true ->
  log wd <> [] \/ hasShownGreeting (widget wd) = true ->
  greetingTimer (reset wd) = Some (clock wd + AUTO_GREETING_DELAY) /\
  (Z.of_nat ms < AUTO_GREETING_DELAY ->
   log (step (reset wd) (Elapse ms rnd)) = []) /\
  (AUTO_GREETING_DELAY <= Z.of_nat ms ->
   log (step (reset wd) (Elapse ms rnd)) = [greetingMessage (clock wd + Z.of_nat ms) rnd] /\
   quickRepliesShown (widget (step (reset wd) (Elapse ms rnd)))
     = isOpen (widget wd) && negb (isTyping (widget wd))).
Proof.
  intros Hm Hw. rewrite reset_world.
  assert (Hd : greetingDepsChanged (widget wd)
                 (setHasShownGreeting false (setMessages (fun _ => []) (widget wd))) = true).
  { unfold greetingDepsChanged, log in *.
    cbn [hasShownGreeting setHasShownGreeting setMessages messages chat length].
    destruct Hw as [Hl|Hs].
    - destruct (messages (chat (widget wd))); [congruence|]. apply orb_true_r.
    - rewrite Hs. reflexivity. }
  rewrite Hd. cbn [greetingTimer]. split; [reflexivity|].
  unfold step. cbn [mounted]. rewrite Hm. cbn [negb]. unfold elapse.
  cbn [greetingTimer clock widget].
  split.
  - intros Hlt. replace (clock wd + AUTO_GREETING_DELAY <=? clock wd + Z.of_nat ms) with false
      by (symmetry; apply Z.leb_gt; lia).
    reflexivity.
  - intros Hge. replace (clock wd + AUTO_GREETING_DELAY <=? clock wd + Z.of_nat ms) with true
      by (symmetry; apply Z.leb_le; lia).
    unfold log. rewrite commit_widget. cbn [widget]. split; [reflexivity|].
    unfold quickRepliesShown. cbn. rewrite !andb_true_r. reflexivity.
Qed.

Lemma reset_rearms_greeting_witness :
  greetingTimer (@reset browser (@run browser demoWorld [Elapse 5000 "g"; Open]))
  = Some (clock (@run browser demoWorld [Elapse 5000 "g"; Open]) + AUTO_GREETING_DELAY).
Proof.
  apply (@reset_rearms_greeting browser (@run browser demoWorld [Elapse 5000 "g"; Open])
           0%nat "x").
  - vm_compute. reflexivity.
  - left. vm_compute. discriminate.
Defined.

(** ** Collapsing the widget *)

(** X12.  Minimising and re-opening loses nothing: on an open, mounted
    widget, Minimize followed by Open gives back the same world, its log,
    input buffer, quick replies, storage and timer included. *)
Theorem minimize_then_open `{Platform} (wd : World) :
  mounted wd = true -> isOpen (widget wd) = true ->
  isOpen (widget (step wd Minimize)) = false /\
  step (step wd Minimize) Open = wd.
Proof.
  intros Hm Ho. destruct wd as [w st c t n m]. cbn [mounted widget] in *. subst m.
  destruct w as [o cs r iv ty sq cq hs]. cbn [isOpen] in Ho. subst o.
  assert (E1 : step {| widget := {| isOpen := true; chat := cs; messagesRef := r;
                                   inputValue := iv; isTyping := ty; showQuickReplies := sq;
                                   currentQuickReplies := cq; hasShownGreeting := hs |};
                       localStorage := st; clock := c; greetingTimer := t;
                       inFlight := n; mounted := true |} Minimize
               = {| widget := {| isOpen := false; chat := cs; messagesRef := r;
                                 inputValue := iv; isTyping := ty; showQuickReplies := sq;
                                 currentQuickReplies := cq; hasShownGreeting := hs |};
                    localStorage := st; clock := c; greetingTimer := t;
                    inFlight := n; mounted := true |}).
  { unfold step, withWidget, commit, saveDepsChanged, greetingDepsChanged.
    cbn [mounted negb widget isOpen localStorage clock greetingTimer inFlight setIsOpen
         chat messagesRef inputValue isTyping showQuickReplies currentQuickReplies
         hasShownGreeting].
    rewrite !Nat.eqb_refl, !String.eqb_refl, Bool.eqb_reflx. reflexivity. }
  rewrite E1. split; [reflexivity|].
  unfold step, withWidget, commit, saveDepsChanged, greetingDepsChanged.
  cbn [mounted negb widget isOpen localStorage clock greetingTimer inFlight setIsOpen
       chat messagesRef inputValue isTyping showQuickReplies currentQuickReplies
       hasShownGreeting].
  rewrite !Nat.eqb_refl, !String.eqb_refl, Bool.eqb_reflx. reflexivity.
Qed.

Lemma minimize_then_open_witness :
  @step browser (@step browser (@run browser demoWorld [Open; InputChange "draft"]) Minimize) Open
  = @run browser demoWorld [Open; InputChange "draft"].
Proof.
  apply (@minimize_then_open browser (@run browser demoWorld [Open; InputChange "draft"]));
    vm_compute; reflexivity.
Defined.

(** ** Relative times *)

(** X13.  [formatTimestamp] by age in milliseconds: a message less than a
    minute old, or dated in the future, reads "Just now"; from one minute up
    to one hour it reads the whole minutes, 1 to 59, followed by "m ago";
    from one hour up to one day the whole hours, 1 to 23, followed by
    "h ago"; from one day on, and for an Invalid Date, it is the locale date
    string. *)
Theorem formatTimestamp_by_age (toLocaleDateString : Date -> string) (now t : Z) :
  (now - t < 60000 ->
   formatTimestamp toLocaleDateString now (ValidDate t) = "Just now") /\
  (60000 <= now - t < 3600000 ->
   formatTimestamp toLocaleDateString now (ValidDate t)
     = JsString.ofZ ((now - t) / 60000) ++ "m ago" /\
   1 <= (now - t) / 60000 <= 59) /\
  (3600000 <= now - t < 86400000 ->
   formatTimestamp toLocaleDateString now (ValidDate t)
     = JsString.ofZ ((now - t) / 3600000) ++ "h ago" /\
   1 <= (now - t) / 3600000 <= 23) /\
  (86400000 <= now - t ->
   formatTimestamp toLocaleDateString now (ValidDate t)
     = toLocaleDateString (ValidDate t)) /\
  formatTimestamp toLocaleDateString now InvalidDate = toLocaleDateString InvalidDate.
Proof.
  unfold formatTimestamp. cbv zeta.
  assert (Hh : (now - t) / 60000 / 60 = (now - t) / 3600000)
    by (rewrite Z.div_div by lia; reflexivity).
  rewrite Hh.
  split; [|split; [|split; [|split; [|reflexivity]]]].
  - intros Hlt.
    assert (Hm : (now - t) / 60000 < 1) by (apply Z.div_lt_upper_bound; lia).
    apply Z.ltb_lt in Hm. rewrite Hm. reflexivity.
  - intros [Hlo Hhi].
    assert (H1 : 1 <= (now - t) / 60000) by (apply Z.div_le_lower_bound; lia).
    assert (H2 : (now - t) / 60000 < 60) by (apply Z.div_lt_upper_bound; lia).
    replace ((now - t) / 60000 <? 1) with false by (symmetry; apply Z.ltb_ge; lia).
    replace ((now - t) / 60000 <? 60) with true by (symmetry; apply Z.ltb_lt; lia).
    split; [reflexivity | lia].
  - intros [Hlo Hhi].
    assert (H1 : 60 <= (now - t) / 60000) by (apply Z.div_le_lower_bound; lia).
    assert (H2 : 1 <= (now - t) / 3600000) by (apply Z.div_le_lower_bound; lia).
    assert (H3 : (now - t) / 3600000 < 24) by (apply Z.div_lt_upper_bound; lia).
    replace ((now - t) / 60000 <? 1) with false by (symmetry; apply Z.ltb_ge; lia).
    replace ((now - t) / 60000 <? 60) with false by (symmetry; apply Z.ltb_ge; lia).
    replace ((now - t) / 3600000 <? 24) with true by (symmetry; apply Z.ltb_lt; lia).
    split; [reflexivity | lia].
  - intros Hlo.
    assert (H1 : 60 <= (now - t) / 60000) by (apply Z.div_le_lower_bound; lia).
    assert (H2 : 24 <= (now - t) / 3600000) by (apply Z.div_le_lower_bound; lia).
    replace ((now - t) / 60000 <? 1) with false by (symmetry; apply Z.ltb_ge; lia).
    replace ((now - t) / 60000 <? 60) with false by (symmetry; apply Z.ltb_ge; lia).
    replace ((now - t) / 3600000 <? 24) with false by (symmetry; apply Z.ltb_ge; lia).
    reflexivity.
Qed.

Example formatTimestamp_examples :
  formatTimestamp (fun _ => "11/14/2023") 1700000000000 (ValidDate 1700000030000) = "Just now" /\
  formatTimestamp (fun _ => "11/14/2023") 1700000000000 (ValidDate 1699999999000) = "Just now" /\
  formatTimestamp (fun _ => "11/14/2023") 1700000000000 (ValidDate 1699999700000) = "5m ago" /\
  formatTimestamp (fun _ => "11/14/2023") 1700000000000 (ValidDate 1699990000000) = "2h ago" /\
  formatTimestamp (fun _ => "11/14/2023") 1700000000000 (ValidDate 1690000000000) = "11/14/2023".
Proof. repeat split; vm_compute; reflexivity. Qed.

(** ** Chronological order *)

Section Chronology.
Context `{Platform}.

Lemma ascending_bounds lo hi l : ascending lo hi l -> lo <= hi.
Proof.
  revert lo. induction l as [|m l IH]; intros lo; cbn [ascending]; [auto|].
  destruct (timestamp m) as [t|]; [|intros []].
  intros [Hlo Hl]. specialize (IH t Hl). lia.
Qed.

Lemma ascending_later lo hi hi' l : ascending lo hi l -> hi <= hi' -> ascending lo hi' l.
Proof.
  revert lo. induction l as [|m l IH]; intros lo; cbn [ascending]; [lia|].
  destruct (timestamp m) as [t|]; [|intros []].
  intros [Hlo Hl] Hh. split; [exact Hlo | apply IH; assumption].
Qed.

Lemma ascending_snoc lo hi l m :
  ascending lo hi l -> timestamp m = ValidDate hi -> ascending lo hi (l ++ [m]).
Proof.
  intros Ha Hm. revert lo Ha. induction l as [|x l IH]; intros lo; cbn [ascending app].
  - intros Hlo. rewrite Hm. split; [exact Hlo | lia].
  - destruct (timestamp x) as [t|]; [|intros []].
    intros [Hlo Hl]. split; [exact Hlo | apply IH, Hl].
Qed.

Lemma replyMessage_timestamp now rnd o : timestamp (replyMessage now rnd o) = ValidDate now.
Proof. destruct o; reflexivity. Qed.

Lemma step_chronological wd e : chronological wd -> chronological (step wd e).
Proof.
  intros (lo & Ha).
  destruct (step_cases wd e)
    as [->|[(w' & -> & Hc & _)|[(rnd & text & _ & _ & ->)
       |[(_ & ->)|[(o & rnd & _ & ->)|[(ms & rnd & _ & ->)|(_ & ->)]]]]]].
  - exists lo. exact Ha.
  - exists lo. unfold log in *. rewrite commit_widget. cbn [widget withWidget clock commit].
    rewrite Hc. exact Ha.
  - destruct (send_log rnd text wd) as [[_ ->]|(Hne & Hl & _)]; [exists lo; exact Ha|].
    exists lo. rewrite Hl.
    assert (Hck : clock (send rnd text wd) = clock wd).
    { unfold send. destruct (handleSendMessage (clock wd) rnd text (widget wd)); reflexivity. }
    rewrite Hck. apply ascending_snoc; [exact Ha | reflexivity].
  - exists (clock wd). unfold reset, handleReset, log. cbv beta iota.
    rewrite commit_widget. cbn [widget clock commit ascending messages chat setMessages
                                setHasShownGreeting]. lia.
  - unfold resume. destruct (inFlight wd); [exists lo; exact Ha|].
    exists lo. unfold log in *. rewrite commit_widget. cbn [widget clock commit].
    rewrite resume_messages. apply ascending_snoc; [exact Ha | apply replyMessage_timestamp].
  - unfold elapse.
    destruct (match greetingTimer wd with Some d => d <=? clock wd + Z.of_nat ms | None => false end).
    + exists (clock wd + Z.of_nat ms). unfold log. rewrite commit_widget.
      cbn [widget clock commit]. cbn. lia.
    + exists lo. unfold log in *. cbn [widget clock].
      apply (ascending_later lo (clock wd)); [exact Ha | lia].
  - exists lo. exact Ha.
Qed.

End Chronology.

(** X14.  The log is kept in chronological order: if the timestamps of the
    log are valid, non-decreasing and not later than the clock, they still
    are after any sequence of events; and this holds right after a mount on
    storage without a snapshot, hence throughout a conversation started
    there. *)
Theorem log_chronological `{Platform} (wd : World) (es : list Event) :
  chronological wd ->
  chronological (run wd es) /\
  (forall st now rndS rndU wd0,
     getItem STORAGE_KEY st = None -> mount st now rndS rndU = Some wd0 ->
     chronological (run wd0 es)).
Proof.
  assert (Hrun : forall es' wd', chronological wd' -> chronological (run wd' es')).
  { induction es' as [|e es' IH]; intros wd' Hc; [exact Hc|].
    cbn [run fold_left]. apply IH, step_chronological, Hc. }
  intros Hc. split; [apply Hrun, Hc|].
  intros st now rndS rndU wd0 Hg Hm. apply Hrun.
  destruct (mount_no_snapshot _ _ _ _ _ Hg Hm) as (uid & st1 & ->).
  exists now. cbn. lia.
Qed.

Lemma log_chronological_witness :
  chronological demoWorld /\ chronological (@run browser demoWorld longLabelScenario).
Proof.
  assert (Hc : chronological demoWorld) by (exists 1000; vm_compute; discriminate).
  split; [exact Hc|].
  apply (@log_chronological browser demoWorld longLabelScenario Hc).
Defined.

(** ** Badge and booking prompt *)

(** X16.  Whenever the booking expression yields its card, and so whenever
    the booking prompt is rendered, the bubble of the agent message that
    carries the latest qualification shows the "Qualified Lead" badge; and a
    bubble shows the badge only for a message that carries a qualification
    whose flag is set. *)
Theorem booking_prompt_has_badge (w : Widget) :
  (bookingCard w = true ->
   exists m, In m (messages (chat w)) /\ role m = agent /\ qualifiedBadge m = true /\
             lead_qualification m = latestQualification w) /\
  (bookingPromptShown w = true -> bookingCard w = true) /\
  (forall m, qualifiedBadge m = true <->
             exists q, lead_qualification m = Some q /\ is_qualified q = true).
Proof.
  split; [|split].
  - unfold bookingCard.
    destruct (latestQualification w) as [q|] eqn:El; [|discriminate].
    intros Hb. apply latestQualification_iff in El as (l1 & m & l2 & E & Hr & Hq & _).
    exists m. split; [rewrite E; apply in_or_app; right; left; reflexivity|].
    split; [exact Hr|]. split; [|exact Hq].
    unfold qualifiedBadge. rewrite Hq. unfold BookingCTA in Hb.
    destruct (is_qualified q); [reflexivity | discriminate].
  - unfold bookingPromptShown. destruct (isOpen w); cbn [negb]; [auto | discriminate].
  - intros m. unfold qualifiedBadge. destruct (lead_qualification m) as [q|].
    + split; [intros Hq; exists q; auto | intros (q' & [= <-] & Hq); exact Hq].
    + split; [discriminate | intros (q' & Hx & _); discriminate].
Qed.
